(** * Cert-Agent: the certificate ingestion pipeline of [main.py]

    A shallow embedding of the text-structuring functions
    ([extract_header_fields], [extract_results_to_rows]), of the reference
    table built from the workbook ([Lot_external]), of the reconciliation
    step and of the per-file body of the main loop, with the ledger
    ([already_done], [mark_done]).

    Modelling conventions.
    - A Python [str] is a [list ascii].  The case maps, the white space and
      the line boundaries are those CPython uses on code points below 128;
      a character above 127 stands for an uncased character that is neither a
      digit, a blank nor a line boundary.
    - The regular expressions of the source are terms of a small regex type,
      run by a backtracking matcher that lists its successes in the order
      Python's [re] tries them.
    - An exception is a value of [exn]; code that can raise returns a
      [result].  The loop body threads a [world]: the four folders, the
      [processed] table and a trace of the steps that ran.  The trace is
      ghost state: it records which statements of the body were reached.
    - The four folders are distinct directories holding plain files.  The
      file system and the database do what they are asked: a move or a read
      raises when the file is missing and at no other time, a write and an
      insert do not raise.
    - The OCR engine, the PDF annotator, SHA-256, the CSV rendering and the
      database clock are parameters; OCR and the annotator may raise.
    - The workbook is given by its rows, each with the text of its columns
      0, 2 and 3 as [astype(str)] and [str] render them. *)

From Stdlib Require Import Ascii String List Arith Lia Bool.
From stdpp Require Import base option list gmap strings.
Import ListNotations.
Local Open Scope string_scope.
Local Open Scope nat_scope.
Local Open Scope list_scope.

Set Default Proof Using "Type".

(** ** Python strings *)

Abbreviation text := (list ascii).

Coercion list_ascii_of_string : string >-> list.

Arguments list_ascii_of_string : simpl never.

Definition code (c : ascii) : nat := nat_of_ascii c.

Definition between (lo hi : nat) (c : ascii) : bool :=
  (lo <=? code c) && (code c <=? hi).

Definition is_upper (c : ascii) : bool := between 65 90 c.
Definition is_lower (c : ascii) : bool := between 97 122 c.
Definition is_cased (c : ascii) : bool := is_upper c || is_lower c.
Definition is_digit (c : ascii) : bool := between 48 57 c.

(** [str.isspace] on one character: TAB, LF, VT, FF, CR, FS, GS, RS, US, SP. *)
Definition is_space (c : ascii) : bool :=
  between 9 13 c || between 28 31 c || (code c =? 32).

(** The line boundaries of [str.splitlines]: LF, VT, FF, CR, FS, GS, RS. *)
Definition is_linebreak (c : ascii) : bool :=
  between 10 13 c || between 28 30 c.

Definition lower_char (c : ascii) : ascii :=
  if is_upper c then ascii_of_nat (code c + 32) else c.

Definition upper_char (c : ascii) : ascii :=
  if is_lower c then ascii_of_nat (code c - 32) else c.

(** [s.lower()] *)
Definition str_lower (s : text) : text := map lower_char s.

Definition text_eqb (a b : text) : bool := bool_decide (a = b).

(** [s.startswith(p)] *)
Fixpoint startswith (p s : text) : bool :=
  match p, s with
  | [], _ => true
  | _ :: _, [] => false
  | a :: p', b :: s' => bool_decide (a = b) && startswith p' s'
  end.

(** [s.endswith(p)] *)
Definition endswith (p s : text) : bool := startswith (rev p) (rev s).

(** [needle in s] *)
Fixpoint str_in (needle s : text) : bool :=
  startswith needle s ||
  match s with
  | [] => false
  | _ :: s' => str_in needle s'
  end.

Fixpoint lstrip (s : text) : text :=
  match s with
  | c :: s' => if is_space c then lstrip s' else s
  | [] => []
  end.

Definition rstrip (s : text) : text := rev (lstrip (rev s)).

(** [s.strip()] *)
Definition str_strip (s : text) : text := rstrip (lstrip s).

(** [s.title()]: a cased character is upper-cased when the character before
    it is not cased, and lower-cased otherwise. *)
Fixpoint title_from (prev_cased : bool) (s : text) : text :=
  match s with
  | [] => []
  | c :: s' =>
      (if prev_cased then lower_char c else upper_char c)
        :: title_from (is_cased c) s'
  end.

Definition str_title (s : text) : text := title_from false s.

(** [s.replace(old, new)] for a non-empty [old]: the occurrences are taken
    from the left and do not overlap.  [skip] counts the characters of the
    occurrence just replaced that are still to be passed over. *)
Fixpoint replace_from (old new : text) (skip : nat) (s : text) : text :=
  match s with
  | [] => []
  | c :: s' =>
      match skip with
      | S k => replace_from old new k s'
      | O =>
          if startswith old s
          then new ++ replace_from old new (length old - 1) s'
          else c :: replace_from old new 0 s'
      end
  end.

Definition str_replace (old new s : text) : text := replace_from old new 0 s.

(** [s.splitlines()]: [cur] is the line being read, [after_cr] tells that the
    previous character was a CR, so that a LF then ends no further line.  A
    last line is listed when it is not empty. *)
Fixpoint splitlines_from (cur : text) (after_cr : bool) (s : text) : list text :=
  match s with
  | [] => if bool_decide (cur = []) then [] else [cur]
  | c :: s' =>
      if (code c =? 10) && after_cr then splitlines_from [] false s'
      else if is_linebreak c then cur :: splitlines_from [] (code c =? 13) s'
      else splitlines_from (cur ++ [c]) false s'
  end.

Definition splitlines (s : text) : list text := splitlines_from [] false s.

(** [s.split(sep, 1)] for a one-character [sep]. *)
Fixpoint split_once_from (sep : ascii) (cur : text) (s : text) : list text :=
  match s with
  | [] => [cur]
  | c :: s' =>
      if bool_decide (c = sep) then [cur; s'] else split_once_from sep (cur ++ [c]) s'
  end.

Definition split_once (sep : ascii) (s : text) : list text :=
  split_once_from sep [] s.

(** [sep.join(parts)] *)
Fixpoint str_join (sep : text) (parts : list text) : text :=
  match parts with
  | [] => []
  | [p] => p
  | p :: rest => p ++ sep ++ str_join sep rest
  end.

(** [Series.unique()]: the distinct values in order of first appearance. *)
Fixpoint unique_from (seen : list text) (l : list text) : list text :=
  match l with
  | [] => []
  | x :: l' =>
      if bool_decide (x ∈ seen) then unique_from seen l'
      else x :: unique_from (x :: seen) l'
  end.

Definition unique (l : list text) : list text := unique_from [] l.

(** ** Regular expressions

    The constructs the source's patterns use.  [re_match ic r s] lists the
    ways [r] matches a prefix of [s], as pairs (matched text, rest), in the
    order a backtracking matcher tries them: a greedy repetition gives its
    longest run first, an alternation its left branch first, an optional
    group its presence first.  [ic] is the flag [re.I]. *)

Inductive regex : Type :=
| Lit (s : text)
| Cls (p : ascii -> bool)
| Plus (p : ascii -> bool)
| Seq (r1 r2 : regex)
| Alt (r1 r2 : regex)
| Opt (r : regex).

(** The splits of [s] after a non-empty run of characters of class [p],
    longest run first. *)
Fixpoint plus_splits (p : ascii -> bool) (s : text) : list (text * text) :=
  match s with
  | c :: s' =>
      if p c
      then map (fun ar => (c :: ar.1, ar.2)) (plus_splits p s') ++ [([c], s')]
      else []
  | [] => []
  end.

Definition lit_match (ic : bool) (lit s : text) : list (text * text) :=
  let n := length lit in
  let hd := take n s in
  if (if ic then text_eqb (str_lower hd) (str_lower lit) else text_eqb hd lit)
  then [(hd, drop n s)] else [].

Fixpoint re_match (ic : bool) (r : regex) (s : text) : list (text * text) :=
  match r with
  | Lit lit => lit_match ic lit s
  | Cls p =>
      match s with
      | c :: s' => if p c then [([c], s')] else []
      | [] => []
      end
  | Plus p => plus_splits p s
  | Seq r1 r2 =>
      flat_map
        (fun ar => map (fun br => (ar.1 ++ br.1, br.2)) (re_match ic r2 ar.2))
        (re_match ic r1 s)
  | Alt r1 r2 => re_match ic r1 s ++ re_match ic r2 s
  | Opt r1 => re_match ic r1 s ++ [([], s)]
  end.

(** [re.search(r, s)]: the match at the leftmost position that has one, as
    (text before the match, matched text, text after it). *)
Fixpoint re_search (ic : bool) (r : regex) (s : text) : option (text * text * text) :=
  match re_match ic r s with
  | (m, rest) :: _ => Some ([], m, rest)
  | [] =>
      match s with
      | [] => None
      | c :: s' =>
          match re_search ic r s' with
          | Some (pre, m, rest) => Some (c :: pre, m, rest)
          | None => None
          end
      end
  end.

(** [m.group(0)] of a search. *)
Definition re_search_group (ic : bool) (r : regex) (s : text) : option text :=
  match re_search ic r s with
  | Some (_, m, _) => Some m
  | None => None
  end.

(** [re.findall(r, s)] for a pattern that matches no empty text: after a
    match the scan goes on from the end of the match, otherwise one character
    further.  Each step consumes a character, so [length s] steps reach the
    end of [s]. *)
Fixpoint findall_steps (n : nat) (r : regex) (s : text) : list text :=
  match n with
  | O => []
  | S n' =>
      match s with
      | [] => []
      | _ :: s' =>
          match re_match false r s with
          | (m, rest) :: _ => m :: findall_steps n' r rest
          | [] => findall_steps n' r s'
          end
      end
  end.

Definition re_findall (r : regex) (s : text) : list text :=
  findall_steps (length s) r s.

(** [re.split(r, s)[0]] for a pattern that matches no empty text: the text
    before the first match, or all of [s] when there is none. *)
Definition re_split_head (ic : bool) (r : regex) (s : text) : text :=
  match re_search ic r s with
  | Some (pre, _, _) => pre
  | None => s
  end.

Definition is_dash_or_digit (c : ascii) : bool := (code c =? 45) || is_digit c.

(** [r"dokki[-\d]+"] *)
Definition re_dokki : regex := Seq (Lit "dokki") (Plus is_dash_or_digit).

(** [r"([0-9]+(?:\/[0-9]+)?)"] *)
Definition re_lot : regex := Seq (Plus is_digit) (Opt (Seq (Lit "/") (Plus is_digit))).

(** [r"(fax|phone|id|\d)"] *)
Definition re_sample_stop : regex :=
  Alt (Lit "fax") (Alt (Lit "phone") (Alt (Lit "id") (Cls is_digit))).

(** [r"([0-9]+\.[0-9]+)"] *)
Definition re_decimal : regex := Seq (Plus is_digit) (Seq (Lit ".") (Plus is_digit)).

(** [r"\d+"] *)
Definition re_digits : regex := Plus is_digit.

(** ** Exceptions *)

Inductive exn : Type :=
| IndexError
| FileNotFoundError (p : text)
| LotNotFound
| OcrError
| AnnotationError.

Inductive result (A : Type) : Type :=
| Ok (a : A)
| Raise (e : exn).

Arguments Ok {A} a.
Arguments Raise {A} e.

(** ** Data *)

(** The dict returned by [extract_header_fields]. *)
Record header : Type := {
  CertificateNumber : text;
  Sample : text;
  LotNumber : text
}.

(** A results row: [{**header, "Analyte": .., "Result": .., "Unit": ..}]. *)
Record row : Type := {
  row_header : header;
  Analyte : text;
  Result : text;
  Unit : text
}.

(** A row of the concatenated workbook, each cell as [astype(str)] renders
    it: column 0 (the lot-bearing cell), column 2 (internal lot) and column 3
    (supplier). *)
Record xl_row : Type := {
  cell0 : text;
  internal_lot : text;
  supplier_name : text
}.

(** A row of [df] once [Lot_external] has been exploded. *)
Record lot_record : Type := {
  Lot_external : text;
  xl : xl_row
}.

Inductive folder : Type := INBOX | PROC | DONE | ERR.

(** [os.path.join(folder, name)] *)
Abbreviation path := (folder * text)%type.

(** A row of the table [processed]. *)
Record ledger_row : Type := {
  filehash : text;
  filename : text;
  processed_at : text
}.

(** The statements of the loop body that ran, in order. *)
Inductive step : Type :=
| Moved (src dst : path)
| Hashed (p : path)
| LedgerQueried (h : text)
| OcrRun (p : path)
| HeaderExtracted
| ResultsExtracted
| CsvWritten (p : path) (rows : list row)
| Reconciled
| Annotated (out : path)
| Printed (p : path)
| LedgerInsert (h name : text)
| ErrorPrinted (file : text) (e : exn).

#[global] Instance folder_eq_dec : EqDecision folder.
Proof. solve_decision. Defined.

#[global] Instance folder_countable : Countable folder.
Proof.
  refine (inj_countable'
            (fun f => match f with INBOX => 0 | PROC => 1 | DONE => 2 | ERR => 3 end)
            (fun n => match n with 0 => INBOX | 1 => PROC | 2 => DONE | _ => ERR end) _).
  by intros [].
Defined.

(** The files of the four folders, by path. *)
Abbreviation files := (gmap (folder * text) text).

(** The folders' files, the ledger table and the trace. *)
Record world : Type := {
  fs : files;
  processed : list ledger_row;
  trace : list step
}.

(** ** The loop body's monad: state and exceptions *)

Definition M (A : Type) : Type := world -> result A * world.

#[global] Instance M_ret : MRet M := fun A a w => (Ok a, w).

#[global] Instance M_bind : MBind M := fun A B f m w =>
  match m w with
  | (Ok a, w') => f a w'
  | (Raise e, w') => (Raise e, w')
  end.

Definition raise {A} (e : exn) : M A := fun w => (Raise e, w).

(** [try: body except Exception as e: handler(e)] *)
Definition try_except (body : M unit) (handler : exn -> M unit) : M unit :=
  fun w =>
    match body w with
    | (Ok tt, w') => (Ok tt, w')
    | (Raise e, w') => handler e w'
    end.

Definition lift {A} (r : result A) : M A := fun w => (r, w).

Definition log (s : step) : M unit := fun w =>
  (Ok tt, {| fs := fs w; processed := processed w; trace := trace w ++ [s] |}).

Definition set_fs (f : files -> files) : M unit :=
  fun w => (Ok tt, {| fs := f (fs w); processed := processed w; trace := trace w |}).

(** Reading a file: [FileNotFoundError] when it does not exist. *)
Definition read_file (p : path) : M text := fun w =>
  match fs w !! p with
  | Some b => (Ok b, w)
  | None => (Raise (FileNotFoundError p.2), w)
  end.

(** [shutil.move(src, dst)] between files: a rename that replaces [dst]. *)
Definition shutil_move (src dst : path) : M unit :=
  b ← read_file src;
  set_fs (fun m => <[dst := b]> (delete src m));;
  log (Moved src dst).

(** [os.path.exists(p)] *)
Definition os_path_exists (p : path) : M bool := fun w =>
  (Ok (bool_decide (is_Some (fs w !! p))), w).

(** [h] is a key of the table [processed]. *)
Definition in_ledger (h : text) (w : world) : bool :=
  existsb (fun r => text_eqb (filehash r) h) (processed w).

(** ** The program *)

Section Program.

(** First column of [products_list.csv] and of [pesticides_list.csv], NaN
    cells dropped. *)
Variable products_csv : list text.
Variable pesticides_csv : list text.

(** The sheets of the workbook, in [sheets.values()] order. *)
Variable sheets : list (list xl_row).

(** SHA-256 hex digest of a file's bytes. *)
Variable sha256_hex : text -> text.

(** Tesseract over the pages of a PDF; [None] when it raises. *)
Variable ocr : text -> option text.

(** The annotated PDF for (source bytes, supplier, internal lots text);
    [None] when PyPDF2 or reportlab raises, which is before the output file
    is opened. *)
Variable annotate : text -> text -> text -> option text.

(** [DataFrame(rows).to_csv(index=False)] *)
Variable csv_of : list row -> text.

(** SQLite's [datetime('now')] when the trace is the given one. *)
Variable datetime_now : list step -> text.

(** [[p.strip().lower() for p in column]] *)
Definition load_list (column : list text) : list text :=
  map (fun p => str_lower (str_strip p)) column.

Definition PRODUCTS : list text := load_list products_csv.
Definition PESTICIDES : list text := load_list pesticides_csv.

(** *** The reference table *)

(** [astype(str).str.replace(".0", "", regex=False).str.findall(r"\d+")] *)
Definition lot_external_cell (r : xl_row) : list text :=
  re_findall re_digits (str_replace ".0" "" (cell0 r)).

(** [df.explode]: one row per element, and one row holding NaN for an empty
    list. *)
Definition explode (r : xl_row) (cell : list text) : list (xl_row * option text) :=
  match cell with
  | [] => [(r, None)]
  | _ => map (fun x => (r, Some x)) cell
  end.

Definition notna (ro : xl_row * option text) : bool :=
  match ro.2 with Some _ => true | None => false end.

(** [astype(str).str.strip()] on the exploded column. *)
Definition lot_external_str (o : option text) : text :=
  match o with
  | Some x => str_strip x
  | None => str_strip "nan"
  end.

Definition df : list lot_record :=
  let df0 := concat sheets in
  let exploded := flat_map (fun r => explode r (lot_external_cell r)) df0 in
  let kept := List.filter notna exploded in
  map (fun ro => {| Lot_external := lot_external_str ro.2; xl := ro.1 |}) kept.

(** *** [extract_header_fields] *)

Definition is_empty (s : text) : bool := bool_decide (s = []).

(** One turn of the loop over the lines: the state is ([cert], [lot]). *)
Definition header_step (st : text * text) (l : text) : text * text :=
  let ll := str_lower l in
  let cert :=
    if str_in "certificate number" ll && is_empty st.1 then
      match re_search_group false re_dokki ll with
      | Some m => str_replace "dokki" "Dokki" m
      | None => st.1
      end
    else st.1 in
  let lot :=
    if str_in "lot number" ll && is_empty st.2 then
      match re_search_group false re_lot l with
      | Some m => m
      | None => st.2
      end
    else st.2 in
  (cert, lot).

(** [for prod in PRODUCTS: if prod in raw_text.lower(): sample = prod.title(); break] *)
Fixpoint sample_from_products (prods : list text) (low : text) : text :=
  match prods with
  | [] => []
  | prod :: rest =>
      if str_in prod low then str_title prod else sample_from_products rest low
  end.

(** The fall-back loop over the lines. *)
Fixpoint sample_from_lines (lines : list text) : result text :=
  match lines with
  | [] => Ok []
  | l :: rest =>
      if startswith "sample :" (str_lower l) then
        match split_once ":" l !! 1 with
        | Some val => Ok (str_strip (re_split_head true re_sample_stop val))
        | None => Raise IndexError
        end
      else sample_from_lines rest
  end.

Definition extract_header_fields (raw_text : text) : result header :=
  let lines := splitlines raw_text in
  let cert_lot := fold_left header_step lines ([], []) in
  let sample := sample_from_products PRODUCTS (str_lower raw_text) in
  match (if is_empty sample then sample_from_lines lines else Ok sample) with
  | Ok sample' =>
      Ok {| CertificateNumber := cert_lot.1; Sample := sample'; LotNumber := cert_lot.2 |}
  | Raise e => Raise e
  end.

(** *** [extract_results_to_rows] *)

Definition not_detected_row (h : header) : row :=
  {| row_header := h; Analyte := "Pesticide Residues"; Result := "Not detected"; Unit := "" |}.

(** One turn of the loop over [PESTICIDES] on the lower-cased line [ll]: the
    state is ([matched], [rows]). *)
Definition pesticide_step (h : header) (ll : text) (st : bool * list row) (pest : text)
    : bool * list row :=
  if str_in pest ll then
    (true,
     if str_in "<loq" ll then
       st.2 ++ [{| row_header := h; Analyte := str_title pest; Result := "LOQ"; Unit := "" |}]
     else
       match re_search_group false re_decimal ll with
       | Some m =>
           st.2 ++ [{| row_header := h; Analyte := str_title pest; Result := m; Unit := "mg/kg" |}]
       | None => st.2
       end)
  else st.

(** The loop over the lines, from the state ([capture], [rows]): its value is
    what the function returns. *)
Fixpoint results_loop (h : header) (lines : list text) (capture : bool) (rows : list row)
    : list row :=
  match lines with
  | [] => rows
  | l :: rest =>
      let ll := str_lower l in
      if str_in "results of analysis" ll then results_loop h rest true rows
      else if capture then
        if str_in "measurement uncertainty" ll then rows
        else if is_empty (str_strip ll) then results_loop h rest capture rows
        else if str_in "not detected" ll then rows ++ [not_detected_row h]
        else
          let st := fold_left (pesticide_step h ll) PESTICIDES (false, rows) in
          if st.1 then results_loop h rest capture st.2
          else results_loop h rest capture st.2
      else results_loop h rest capture rows
  end.

Definition extract_results_to_rows (raw_text : text) (h : header) : list row :=
  results_loop h (splitlines raw_text) false [].

(** *** Reconciliation (the loop body, from [external_lots] to [internal_text]) *)

(** [Series.isin(values)] on one value *)
Definition isin (x : text) (values : list text) : bool := bool_decide (x ∈ values).

Definition reconcile (raw_text : text) : result (text * text) :=
  let external_lots := re_findall re_digits raw_text in
  let rows_xl := List.filter (fun r => isin (Lot_external r) external_lots) df in
  if bool_decide (rows_xl = []) then Raise LotNotFound
  else
    match rows_xl !! 0 with
    | Some r0 =>
        let supplier := supplier_name (xl r0) in
        let internal_lots := unique (map (fun r => internal_lot (xl r)) rows_xl) in
        Ok (supplier, str_join " / " internal_lots)
    | None => Raise IndexError
    end.

(** *** The ledger *)

Definition file_hash (p : path) : M text :=
  b ← read_file p;
  log (Hashed p);;
  mret (sha256_hex b).

(** [SELECT 1 FROM processed WHERE filehash=?] has a row *)
Definition already_done (h : text) : M bool := fun w =>
  (Ok (in_ledger h w),
   {| fs := fs w; processed := processed w; trace := trace w ++ [LedgerQueried h] |}).

(** [INSERT OR IGNORE INTO processed VALUES (?, ?, datetime('now'))]:
    [filehash] is the primary key, a row whose key is taken is dropped. *)
Definition mark_done (h name : text) : M unit := fun w =>
  (Ok tt,
   {| fs := fs w;
      processed :=
        if in_ledger h w
        then processed w
        else processed w ++
               [{| filehash := h; filename := name; processed_at := datetime_now (trace w) |}];
      trace := trace w ++ [LedgerInsert h name] |}).

(** *** Collaborators *)

Definition ocr_text (p : path) : M text :=
  b ← read_file p;
  log (OcrRun p);;
  match ocr b with
  | Some t => mret t
  | None => raise OcrError
  end.

Definition write_file (p : path) (b : text) : M unit :=
  set_fs (fun m => <[p := b]> m).

Definition build_annotated_pdf (pdf_path : path) (supplier internal_lots_text : text) : M path :=
  b ← read_file pdf_path;
  match annotate b supplier internal_lots_text with
  | Some out =>
      let out_pdf := (DONE, str_replace ".pdf" "_ANNOTATED.pdf" pdf_path.2) in
      write_file out_pdf out;;
      log (Annotated out_pdf);;
      mret out_pdf
  | None => raise AnnotationError
  end.

(** [print_pdf] swallows every exception of the printer. *)
Definition print_pdf (p : path) : M unit := log (Printed p).

(** *** The main loop *)

(** The body of [for file in os.listdir(INBOX)] after the extension test. *)
Definition process_file (file : text) : M unit :=
  let src := (INBOX, file) in
  let work := (PROC, file) in
  try_except
    (shutil_move src work;;
     h ← file_hash work;
     dup ← already_done h;
     if (dup : bool) then shutil_move work (DONE, file)
     else
       raw_text ← ocr_text work;
       hd ← lift (extract_header_fields raw_text);
       log HeaderExtracted;;
       let rows := extract_results_to_rows raw_text hd in
       log ResultsExtracted;;
       (if bool_decide (rows = []) then mret tt
        else
          let csv := (DONE, str_replace ".pdf" "_RESULTS.csv" file) in
          write_file csv (csv_of rows);;
          log (CsvWritten csv rows));;
       sl ← lift (reconcile raw_text);
       log Reconciled;;
       annotated ← build_annotated_pdf work sl.1 sl.2;
       print_pdf annotated;;
       shutil_move work (DONE, file);;
       mark_done h file)
    (fun e =>
       ex ← os_path_exists work;
       (if (ex : bool) then shutil_move work (ERR, file) else mret tt);;
       log (ErrorPrinted file e)).

(** *** The paths through the loop body *)

Definition csv_path (file : text) : path := (DONE, str_replace ".pdf" "_RESULTS.csv" file).
Definition annotated_path (file : text) : path := (DONE, str_replace ".pdf" "_ANNOTATED.pdf" file).

(** The folders once the file is in the working folder. *)
Definition acquired (file b : text) (m : files) : files :=
  <[(PROC, file) := b]> (delete (INBOX, file) m).

(** The folders once the results CSV is written, which it is when there are
    rows. *)
Definition with_csv (file : text) (rows : list row) (m : files) : files :=
  if bool_decide (rows = []) then m else <[csv_path file := csv_of rows]> m.

(** The file leaves the working folder for the folder [d]. *)
Definition filed (d : folder) (file b : text) (m : files) : files :=
  <[(d, file) := b]> (delete (PROC, file) m).

(** The steps up to the ledger lookup, and those of the extraction. *)
Definition steps_lookup (file b : text) : list step :=
  [Moved (INBOX, file) (PROC, file); Hashed (PROC, file); LedgerQueried (sha256_hex b)].

Definition steps_extract (file : text) (rows : list row) : list step :=
  [OcrRun (PROC, file); HeaderExtracted; ResultsExtracted]
  ++ (if bool_decide (rows = []) then [] else [CsvWritten (csv_path file) rows]).

(** The world the handler leaves: the file goes from the working folder to
    the error folder, the ledger is as it was, the error is printed. *)
Definition failed (w : world) (file b : text) (m : files)
    (steps : list step) (e : exn) : world :=
  {| fs := filed ERR file b m;
     processed := processed w;
     trace := trace w ++ steps ++ [Moved (PROC, file) (ERR, file); ErrorPrinted file e] |}.

(** The six paths of the loop body for [file] from the world [w], each with
    the world it ends in. *)
Inductive body_path (w : world) (file : text) : world -> Prop :=
| path_not_acquired :
    fs w !! (INBOX, file) = None ->
    body_path w file
      match fs w !! (PROC, file) with
      | Some b' =>
          {| fs := filed ERR file b' (fs w);
             processed := processed w;
             trace := trace w ++ [Moved (PROC, file) (ERR, file);
                                  ErrorPrinted file (FileNotFoundError file)] |}
      | None =>
          {| fs := fs w; processed := processed w;
             trace := trace w ++ [ErrorPrinted file (FileNotFoundError file)] |}
      end
| path_duplicate b :
    fs w !! (INBOX, file) = Some b ->
    in_ledger (sha256_hex b) w = true ->
    body_path w file
      {| fs := filed DONE file b (acquired file b (fs w));
         processed := processed w;
         trace := trace w ++ steps_lookup file b ++ [Moved (PROC, file) (DONE, file)] |}
| path_ocr_failed b :
    fs w !! (INBOX, file) = Some b ->
    in_ledger (sha256_hex b) w = false ->
    ocr b = None ->
    body_path w file
      (failed w file b (acquired file b (fs w))
         (steps_lookup file b ++ [OcrRun (PROC, file)]) OcrError)
| path_reconcile_failed b raw hd e :
    fs w !! (INBOX, file) = Some b ->
    in_ledger (sha256_hex b) w = false ->
    ocr b = Some raw ->
    extract_header_fields raw = Ok hd ->
    reconcile raw = Raise e ->
    body_path w file
      (failed w file b
         (with_csv file (extract_results_to_rows raw hd) (acquired file b (fs w)))
         (steps_lookup file b ++ steps_extract file (extract_results_to_rows raw hd)) e)
| path_annotation_failed b raw hd sup lots :
    fs w !! (INBOX, file) = Some b ->
    in_ledger (sha256_hex b) w = false ->
    ocr b = Some raw ->
    extract_header_fields raw = Ok hd ->
    reconcile raw = Ok (sup, lots) ->
    annotate b sup lots = None ->
    body_path w file
      (failed w file b
         (with_csv file (extract_results_to_rows raw hd) (acquired file b (fs w)))
         (steps_lookup file b ++ steps_extract file (extract_results_to_rows raw hd)
          ++ [Reconciled])
         AnnotationError)
| path_succeeded b raw hd sup lots out :
    fs w !! (INBOX, file) = Some b ->
    in_ledger (sha256_hex b) w = false ->
    ocr b = Some raw ->
    extract_header_fields raw = Ok hd ->
    reconcile raw = Ok (sup, lots) ->
    annotate b sup lots = Some out ->
    body_path w file
      {| fs := filed DONE file b
                 (<[annotated_path file := out]>
                    (with_csv file (extract_results_to_rows raw hd) (acquired file b (fs w))));
         processed :=
           processed w
           ++ [{| filehash := sha256_hex b; filename := file;
                  processed_at :=
                    datetime_now
                      (trace w ++ steps_lookup file b
                       ++ steps_extract file (extract_results_to_rows raw hd)
                       ++ [Reconciled; Annotated (annotated_path file);
                           Printed (annotated_path file);
                           Moved (PROC, file) (DONE, file)]) |}];
         trace :=
           trace w ++ (steps_lookup file b
                       ++ steps_extract file (extract_results_to_rows raw hd)
                       ++ [Reconciled; Annotated (annotated_path file);
                           Printed (annotated_path file);
                           Moved (PROC, file) (DONE, file)])
           ++ [LedgerInsert (sha256_hex b) file] |}.

(** [file.lower().endswith(".pdf")] *)
Definition is_pdf (file : text) : bool := endswith ".pdf" (str_lower file).

(** One pass of [for file in os.listdir(INBOX)] over the listing. *)
Fixpoint scan (listing : list text) : M unit :=
  match listing with
  | [] => mret tt
  | file :: rest =>
      (if is_pdf file then process_file file else mret tt);;
      scan rest
  end.

End Program.

(** ** The collaborators, step by step

    [ocr_text], [build_annotated_pdf] and [print_pdf] as the source writes
    them, over the libraries' calls: what the loop body takes for the
    parameters [ocr] and [annotate] can be built from them. *)

(** State and exceptions over any state. *)
Definition SE (S A : Type) : Type := S -> result A * S.

(** [try: body finally: fin]: [fin] runs on both ways out of [body], and an
    exception of [fin] replaces what [body] gave. *)
Definition try_finally {S A} (body : SE S A) (fin : SE S unit) : SE S A :=
  fun s =>
    match body s with
    | (r, s') =>
        match fin s' with
        | (Ok _, s'') => (r, s'')
        | (Raise e, s'') => (Raise e, s'')
        end
    end.

Section Collaborators.

(** A page of an opened PDF. *)
Variable page : Type.

(** *** [ocr_text] *)

(** [fitz.open] on a file's bytes: the pages of the document; [None] when it
    raises. *)
Variable fitz_open : text -> option (list page).

(** [get_pixmap], [Image.frombytes] and [image_to_string] on one page;
    [None] when one of them raises. *)
Variable page_to_string : page -> option text.

(** [for page in doc: ... text += image_to_string(img, ...)], from the
    text [acc] read so far. *)
Fixpoint ocr_pages (pages : list page) (acc : text) : result text :=
  match pages with
  | [] => Ok acc
  | p :: rest =>
      match page_to_string p with
      | Some t => ocr_pages rest (acc ++ t)
      | None => Raise OcrError
      end
  end.

(** The state is the number of documents that are open. *)
Definition doc_close : SE nat unit := fun opened => (Ok tt, opened - 1).

Definition ocr_text_pages (b : text) : SE nat text := fun opened =>
  match fitz_open b with
  | None => (Raise OcrError, opened)
  | Some pages =>
      try_finally (fun o => (ocr_pages pages [], o)) doc_close (S opened)
  end.

(** What [ocr_text_pages] gives for the parameter [ocr]. *)
Definition ocr_of_pages (b : text) : option text :=
  match (ocr_text_pages b 0).1 with
  | Ok t => Some t
  | Raise _ => None
  end.

(** *** [build_annotated_pdf] *)

(** [PdfReader(pdf_path).pages]; [None] when the file cannot be parsed. *)
Variable read_pdf : text -> option (list page).

(** The overlay document drawn for a label: the canvas calls and
    [PdfReader(packet)], as its pages; [None] when one of them raises. *)
Variable overlay_of : text -> option (list page).

(** [page.merge_page(overlay)] *)
Variable merge_page : page -> page -> page.

(** [writer.write(f)]: the bytes of the written document. *)
Variable write_pdf : list page -> text.

(** [get_display(arabic_reshaper.reshape(supplier))] *)
Variable reshape_display : text -> text.

(** [f"{internal_lots_text}  {supplier_ar}"] *)
Definition label_text (supplier internal_lots_text : text) : text :=
  internal_lots_text ++ "  " ++ reshape_display supplier.

(** [for i in indices: writer.add_page(reader.pages[i])] *)
Fixpoint add_pages (pages : list page) (indices : list nat) (writer : list page)
    : result (list page) :=
  match indices with
  | [] => Ok writer
  | i :: rest =>
      match pages !! i with
      | Some p => add_pages pages rest (writer ++ [p])
      | None => Raise IndexError
      end
  end.

(** The pages of the written document: [reader.pages[0]] is read before
    [overlay.pages[0]]. *)
Definition annotated_pages (pages : list page) (supplier internal_lots_text : text)
    : result (list page) :=
  match overlay_of (label_text supplier internal_lots_text) with
  | None => Raise AnnotationError
  | Some overlay =>
      match pages !! 0 with
      | None => Raise IndexError
      | Some p0 =>
          match overlay !! 0 with
          | None => Raise IndexError
          | Some o0 =>
              add_pages pages (seq 1 (length pages - 1)) [merge_page p0 o0]
          end
      end
  end.

(** What [build_annotated_pdf] gives for the parameter [annotate]. *)
Definition annotate_of_pages (b supplier internal_lots_text : text) : option text :=
  match read_pdf b with
  | None => None
  | Some pages =>
      match annotated_pages pages supplier internal_lots_text with
      | Ok out => Some (write_pdf out)
      | Raise _ => None
      end
  end.

(** *** [print_pdf] *)

(** The spooler: the default printer and the jobs sent, each with the
    printer that was the default then. *)
Record spooler : Type := {
  default_printer : text;
  jobs : list (path * text)
}.

(** Whether [GetDefaultPrinter], [SetDefaultPrinter(p)] and the [ShellExecute]
    of a file go through. *)
Variable get_ok : bool.
Variable set_ok : text -> bool.
Variable shell_ok : path -> bool.

(** [None] is an exception, of whatever class: [print_pdf] catches all. *)
Definition GetDefaultPrinter (s : spooler) : option text :=
  if get_ok then Some (default_printer s) else None.

Definition SetDefaultPrinter (p : text) (s : spooler) : option spooler :=
  if set_ok p then Some {| default_printer := p; jobs := jobs s |} else None.

(** [ShellExecute(0, "print", pdf_path, None, ".", 0)] *)
Definition ShellExecute_print (pdf_path : path) (s : spooler) : option spooler :=
  if shell_ok pdf_path
  then Some {| default_printer := default_printer s;
               jobs := jobs s ++ [(pdf_path, default_printer s)] |}
  else None.

(** The [try] block with its [except]: the value returned, the local
    [default] when it was bound, and the spooler. *)
Definition print_try (pdf_path : path) (printer : text) (s : spooler)
    : bool * option text * spooler :=
  match GetDefaultPrinter s with
  | None => (false, None, s)
  | Some default =>
      match SetDefaultPrinter printer s with
      | None => (false, Some default, s)
      | Some s1 =>
          match ShellExecute_print pdf_path s1 with
          | None => (false, Some default, s1)
          | Some s2 => (true, Some default, s2)
          end
      end
  end.

(** The [finally] block: [SetDefaultPrinter(default)] raises [NameError] when
    [default] is unbound, and every exception is passed over. *)
Definition print_finally (default : option text) (s : spooler) : spooler :=
  match default with
  | None => s
  | Some d =>
      match SetDefaultPrinter d s with
      | Some s' => s'
      | None => s
      end
  end.

Definition print_pdf_spooler (pdf_path : path) (printer : text) (s : spooler)
    : bool * spooler :=
  let r := print_try pdf_path printer s in
  (r.1.1, print_finally r.1.2 r.2).

End Collaborators.

(** ** The words of the specification

    Definitions that follow the specification's wording, to be compared
    with the functions above. *)

(** [name] occurs in [s] as a substring, case-insensitively. *)
Definition icontains (name s : text) : bool := str_in (str_lower name) (str_lower s).

Definition has_results_of_analysis (l : text) : bool := icontains "results of analysis" l.
Definition has_measurement_uncertainty (l : text) : bool := icontains "measurement uncertainty" l.
Definition has_not_detected (l : text) : bool := icontains "not detected" l.

(** A line of white space only. *)
Definition is_blank (l : text) : bool := forallb is_space l.

(** The first match of digits "." digits on a line. *)
Definition first_decimal (l : text) : option text := re_search_group false re_decimal l.

(** The rows one line of the results section yields: each analyte of the
    lexicon, in the lexicon's order, is tested on its own. *)
Definition analyte_rows (h : header) (analytes : list text) (l : text) : list row :=
  flat_map
    (fun name =>
       if icontains name l then
         if icontains "<loq" l then
           [{| row_header := h; Analyte := str_title name; Result := "LOQ"; Unit := "" |}]
         else
           match first_decimal l with
           | Some d => [{| row_header := h; Analyte := str_title name; Result := d; Unit := "mg/kg" |}]
           | None => []
           end
       else [])
    analytes.

(** The rows of the lines of a results section, in line order: a blank line
    and a line that holds "results of analysis" again yield none. *)
Definition section_rows (h : header) (analytes : list text) (sec : list text) : list row :=
  flat_map
    (fun l =>
       if is_blank l || has_results_of_analysis l then [] else analyte_rows h analytes l)
    sec.

(** The first value [f] finds, going down the lines. *)
Fixpoint first_found {A} (f : text -> option A) (lines : list text) : option A :=
  match lines with
  | [] => None
  | l :: rest =>
      match f l with
      | Some a => Some a
      | None => first_found f rest
      end
  end.

(** What a line gives for the lot number: it has to hold "lot number", and
    the pattern is looked for on the whole line, from its left end. *)
Definition lot_of_line (l : text) : option text :=
  if icontains "lot number" l then re_search_group false re_lot l else None.

(** The same for the certificate number, on the lower-cased line, with the
    prefix capitalised. *)
Definition cert_of_line (l : text) : option text :=
  if icontains "certificate number" l then
    match re_search_group false re_dokki (str_lower l) with
    | Some m => Some (("Dokki" : text) ++ drop 5 m)
    | None => None
    end
  else None.

(** The text before the first "fax", "phone", "id" (in any case) or digit. *)
Fixpoint before_stop (s : text) : text :=
  match s with
  | [] => []
  | c :: s' =>
      if startswith "fax" (str_lower s) || startswith "phone" (str_lower s)
         || startswith "id" (str_lower s) || is_digit c
      then [] else c :: before_stop s'
  end.

(** What a line gives for the sample: it has to begin with "sample :". *)
Definition sample_of_line (l : text) : option text :=
  if startswith "sample :" (str_lower l) then Some (str_strip (before_stop (drop 8 l)))
  else None.

(** The first name of the list that occurs in [s], case-insensitively. *)
Definition first_name_in (names : list text) (s : text) : option text :=
  List.find (fun name => icontains name s) names.

(** Maximal runs of digits, from the left: [cur] is the run being read. *)
Fixpoint digit_runs_from (cur : text) (s : text) : list text :=
  match s with
  | [] => if is_empty cur then [] else [cur]
  | c :: s' =>
      if is_digit c then digit_runs_from (cur ++ [c]) s'
      else (if is_empty cur then [] else [cur]) ++ digit_runs_from [] s'
  end.

Definition digit_runs (s : text) : list text := digit_runs_from [] s.

(** The records one workbook row gives for the external lot ids [ids]. *)
Definition records_of (r : xl_row) (ids : list text) : list lot_record :=
  map (fun d => {| Lot_external := d; xl := r |}) ids.

(** The records of a table whose external lot id is a digit run of [raw]. *)
Definition matching (raw : text) (table : list lot_record) : list lot_record :=
  List.filter (fun r => bool_decide (Lot_external r ∈ digit_runs raw)) table.

(** The distinct values of a list, each where it first occurs. *)
Fixpoint distinct (l : list text) : list text :=
  match l with
  | [] => []
  | x :: l' => x :: List.filter (fun y => negb (text_eqb y x)) (distinct l')
  end.

(** The parts one after the other, with [sep] between each two. *)
Definition joined (sep : text) (parts : list text) : text :=
  match parts with
  | [] => []
  | p :: rest => p ++ flat_map (fun q => sep ++ q) rest
  end.

Definition is_csv_written (s : step) : bool :=
  match s with CsvWritten _ _ => true | _ => false end.

(** A pattern whose matches are the same on a text and on its lower-cased
    form. *)
Definition caseless (r : regex) : Prop :=
  forall s, re_match false r (str_lower s)
            = map (fun mr => (mr.1, str_lower mr.2)) (re_match false r s).

(** The steps the loop body added to the trace. *)
Definition new_steps (w w' : world) : list step := drop (length (trace w)) (trace w').

(** ** Shapes of the extracted values *)

(** A non-empty run of digits. *)
Definition all_digits (s : text) : bool := negb (is_empty s) && forallb is_digit s.

(** digits "." digits *)
Definition decimal_shape (s : text) : Prop :=
  exists a b, s = a ++ "." ++ b /\ all_digits a = true /\ all_digits b = true.

(** digits, optionally "/" digits *)
Definition lot_shape (s : text) : Prop :=
  all_digits s = true
  \/ exists a b, s = a ++ "/" ++ b /\ all_digits a = true /\ all_digits b = true.

(** "Dokki" and a non-empty run of dashes and digits *)
Definition cert_shape (s : text) : Prop :=
  exists t, s = ("Dokki" : text) ++ t /\ t <> [] /\ forallb is_dash_or_digit t = true.

(** A row for an analyte of the lexicon [names], under the header [h]: the
    result is "LOQ" or a decimal in mg/kg. *)
Definition analyte_row_shape (h : header) (names : list text) (r : row) : Prop :=
  row_header r = h
  /\ (exists name, In name names /\ Analyte r = str_title name)
  /\ ((Result r = "LOQ" /\ Unit r = "")
      \/ (decimal_shape (Result r) /\ Unit r = "mg/kg")).

Definition starts_clean (s : text) : bool :=
  match s with
  | [] => true
  | c :: _ => negb (is_space c)
  end.

(** No white space at either end. *)
Definition no_outer_space (s : text) : bool := starts_clean s && starts_clean (rev s).

(** ** Concrete inputs *)

Definition LF : text := [ascii_of_nat 10].

(** The text whose lines are the given ones, each ended by a line feed. *)
Definition unlines (ls : list text) : text := flat_map (fun l => l ++ LF) ls.

Definition ex_pesticides : list text := ["Chlorpyrifos" : text; "malathion" : text].
Definition ex_products : list text := ["Orange" : text; "dried figs " : text].

Definition ex_sheets : list (list xl_row) :=
  [ [ {| cell0 := "778"; internal_lot := "INT-99"; supplier_name := "Acme Farms" |} ];
    [ {| cell0 := "12345/67890"; internal_lot := "INT-7"; supplier_name := "Nile Co" |};
      {| cell0 := "nan"; internal_lot := "INT-8"; supplier_name := "Delta" |} ] ].

Definition ex_certificate : text :=
  unlines [ "Certificate Number: DOKKI-2024-001" : text;
            "Lot Number: 778" : text;
            "Results of Analysis" : text;
            "Chlorpyrifos 0.023 mg/kg" : text;
            "Measurement Uncertainty 5%" : text ].

Definition ex_header : header :=
  {| CertificateNumber := "Dokki-2024-001"; Sample := "Orange"; LotNumber := "778" |}.

(** A negative certificate: the heading, then the declaration. *)
Definition ex_negative : text :=
  unlines [ "Certificate Number: DOKKI-2024-002" : text;
            "Results of Analysis" : text;
            "Pesticide residues: Not Detected" : text;
            "Chlorpyrifos 0.5 mg/kg" : text ].

(** A declaration that also names the uncertainty. *)
Definition ex_negative_uncertainty : text :=
  unlines [ "Results of Analysis" : text;
            "Not detected (measurement uncertainty not applicable)" : text;
            "Malathion 0.7 mg/kg" : text ].

(** A results section of several kinds of lines. *)
Definition ex_section : text :=
  unlines [ "Lot Number: 778" : text;
            "RESULTS OF ANALYSIS" : text;
            "Chlorpyrifos 0.023 mg/kg" : text;
            "   " : text;
            "Malathion <LOQ" : text;
            "chlorpyrifos + MALATHION 12 1.50 0.7" : text;
            "Chlorpyrifos traces" : text;
            "Chlorpyrifos 0.023 mg/kg" : text;
            "Measurement Uncertainty 5%" : text;
            "Malathion 9.9 mg/kg" : text ].

(** A declaration after an analyte line. *)
Definition ex_mixed : text :=
  unlines [ "Results of Analysis" : text;
            "Chlorpyrifos 0.5 mg/kg" : text;
            "Others: not detected" : text;
            "Malathion 0.7 mg/kg" : text ].

(** A declaration on a line that names the section again. *)
Definition ex_repeated_heading : text :=
  unlines [ "Results of Analysis" : text;
            "Chlorpyrifos 0.5 mg/kg" : text;
            "Results of analysis: not detected" : text ].

Definition ex_row (analyte result unit : text) : row :=
  {| row_header := ex_header; Analyte := analyte; Result := result; Unit := unit |}.

Definition ex_sha (b : text) : text := "h:" ++ b.
Definition ex_ocr (b : text) : option text :=
  if text_eqb b "pdf-1" then Some ex_certificate
  else if text_eqb b "pdf-2" then Some ex_mixed
  else None.
Definition ex_annotate (b sup lots : text) : option text := Some (b ++ "+" ++ lots ++ "  " ++ sup).
Definition ex_csv (rows : list row) : text := flat_map (fun r => Analyte r ++ "," ++ Result r ++ "," ++ Unit r ++ ";") rows.
Definition ex_now (t : list step) : text := "t".

Definition ex_run : text -> M unit :=
  process_file ex_products ex_pesticides ex_sheets ex_sha ex_ocr ex_annotate ex_csv ex_now.

(** The certificate of the end-to-end scenario, in the inbound folder. *)
Definition ex_world : world :=
  {| fs := <[(INBOX, "a.pdf" : text) := ("pdf-1" : text)]> ∅; processed := []; trace := [] |}.

(** The same file when its hash is already in the ledger. *)
Definition ex_world_seen : world :=
  {| fs := <[(INBOX, "a.pdf" : text) := ("pdf-1" : text)]> ∅;
     processed := [{| filehash := "h:pdf-1"; filename := "first.pdf"; processed_at := "t0" |}];
     trace := [] |}.

(** A certificate with results and no known lot. *)
Definition ex_world_unknown_lot : world :=
  {| fs := <[(INBOX, "b.pdf" : text) := ("pdf-2" : text)]> ∅; processed := []; trace := [] |}.

Definition ex_xl (cell : text) : xl_row :=
  {| cell0 := cell; internal_lot := "INT-1"; supplier_name := "Acme Farms" |}.

(** Collaborators for the examples: a page is its text. *)
Definition ex_fitz_open (b : text) : option (list text) :=
  if text_eqb b "doc-2" then Some [ "Lot Number: 778" : text; LF; "Results" : text ]
  else if text_eqb b "doc-bad" then Some [ "page one" : text; "" : text; "page three" : text ]
  else None.

(** An empty page cannot be read. *)
Definition ex_page_to_string (p : text) : option text :=
  if is_empty p then None else Some p.

(** A certificate whose extension is in upper case. *)
Definition ex_world_upper : world :=
  {| fs := <[(INBOX, "C.PDF" : text) := ("pdf-1" : text)]> ∅; processed := []; trace := [] |}.

(** Two files in the inbound folder, one of them no PDF. *)
Definition ex_world_two : world :=
  {| fs := <[(INBOX, "notes.txt" : text) := ("memo" : text)]>
             (<[(INBOX, "a.pdf" : text) := ("pdf-1" : text)]> ∅);
     processed := []; trace := [] |}.

Definition ex_scan : list text -> M unit :=
  scan ex_products ex_pesticides ex_sheets ex_sha ex_ocr ex_annotate ex_csv ex_now.

(** A document whose second page cannot be read. *)
Definition ex_world_bad : world :=
  {| fs := <[(INBOX, "bad.pdf" : text) := ("doc-bad" : text)]> ∅; processed := []; trace := [] |}.

(** A text that names the lots of three records, two of them of one
    workbook row. *)
Definition ex_three_lots : text := "Lots 67890, 12345 and 778".

(** A line on which the certificate number and the lot number stand side by
    side. *)
Definition ex_shared_line : text := "Certificate Number: DOKKI-2024-001   Lot Number: 778".

(** The certificate of [ex_world] dropped into the inbound folder again,
    under its name, after it has been processed. *)
Definition ex_world_again : world :=
  let w1 := (ex_run "a.pdf" ex_world).2 in
  {| fs := <[(INBOX, "a.pdf" : text) := ("pdf-1" : text)]> (fs w1);
     processed := processed w1; trace := trace w1 |}.

(** ** Tactics *)

(** Case analysis over the 256 characters. *)
Ltac by_chars c :=
  destruct c as [[] [] [] [] [] [] [] []]; vm_compute; intros; congruence.

(** One step of the loop body: project the world, look a file up. *)
Ltac exec :=
  repeat first
    [ progress cbn [fs processed trace fst snd]
    | match goal with H : ?m !! ?k = _ |- context [?m !! ?k] => rewrite H end
    | progress autorewrite with folders ].

Ltac unfold_body :=
  unfold process_file, try_except, build_annotated_pdf, print_pdf, write_file, ocr_text,
    shutil_move, file_hash, already_done, mark_done, os_path_exists, read_file, set_fs,
    log, lift, raise, in_ledger;
  unfold mbind, M_bind, mret, M_ret;
  unfold failed, filed, acquired, with_csv, steps_extract, steps_lookup, csv_path, annotated_path.

(** ** Characters and case *)

Lemma lower_char_idem c : lower_char (lower_char c) = lower_char c.
Proof. by_chars c. Qed.

Lemma is_space_lower_char c : is_space (lower_char c) = is_space c.
Proof. by_chars c. Qed.

Lemma is_digit_lower_char c : is_digit (lower_char c) = is_digit c.
Proof. by_chars c. Qed.

Lemma lower_char_digit c : is_digit c = true -> lower_char c = c.
Proof. by_chars c. Qed.

Lemma str_lower_idem s : str_lower (str_lower s) = str_lower s.
Proof.
  unfold str_lower. rewrite map_map. apply map_ext. intros c. apply lower_char_idem.
Qed.

Lemma str_lower_length s : length (str_lower s) = length s.
Proof. apply length_map. Qed.

(** ** White space *)

Lemma lstrip_forallb s : forallb is_space (lstrip s) = forallb is_space s.
Proof.
  induction s as [|c s IH]; [done|]. simpl.
  destruct (is_space c) eqn:E; simpl; [done|]. by rewrite E.
Qed.

Lemma lstrip_nil s : lstrip s = [] <-> forallb is_space s = true.
Proof.
  induction s as [|c s IH]; [done|]. simpl.
  destruct (is_space c); simpl; [done|]. split; discriminate.
Qed.

Lemma forallb_rev {A} (p : A -> bool) l : forallb p (rev l) = forallb p l.
Proof.
  induction l as [|x l IH]; [done|]. simpl.
  rewrite forallb_app, IH. simpl. rewrite andb_true_r. apply andb_comm.
Qed.

Lemma str_strip_nil s : str_strip s = [] <-> forallb is_space s = true.
Proof.
  unfold str_strip, rstrip. split.
  - intros H. apply (f_equal (@rev ascii)) in H. rewrite rev_involutive in H.
    simpl in H. apply lstrip_nil in H. by rewrite forallb_rev, lstrip_forallb in H.
  - intros H. apply lstrip_nil in H. by rewrite H.
Qed.

Lemma forallb_is_space_lower s : forallb is_space (str_lower s) = forallb is_space s.
Proof.
  induction s as [|c s IH]; [done|]. simpl. by rewrite is_space_lower_char, IH.
Qed.

Lemma is_empty_strip_lower l : is_empty (str_strip (str_lower l)) = is_blank l.
Proof.
  unfold is_empty, is_blank. rewrite <- forallb_is_space_lower.
  destruct (forallb is_space (str_lower l)) eqn:E.
  - apply str_strip_nil in E. by rewrite E.
  - apply bool_decide_eq_false. intros H. apply str_strip_nil in H. congruence.
Qed.

(** ** Case and the decimal pattern *)

Lemma caseless_plus_digit : caseless (Plus is_digit).
Proof.
  intros s. simpl. induction s as [|c s IH]; [done|]. simpl.
  rewrite is_digit_lower_char. destruct (is_digit c) eqn:E; [|done].
  rewrite (lower_char_digit c E). fold (str_lower s). rewrite IH.
  rewrite map_app, !map_map. done.
Qed.

Lemma caseless_dot : caseless (Lit ".").
Proof.
  intros [|c s]; [done|]. simpl. unfold lit_match. simpl.
  unfold text_eqb. by_chars c.
Qed.

Lemma caseless_seq r1 r2 : caseless r1 -> caseless r2 -> caseless (Seq r1 r2).
Proof.
  intros H1 H2 s. simpl. rewrite H1. rewrite flat_map_concat_map, map_map.
  rewrite flat_map_concat_map, concat_map, map_map. f_equal.
  apply map_ext. intros [a r]. simpl. rewrite H2, !map_map. done.
Qed.

Lemma caseless_decimal : caseless re_decimal.
Proof. repeat apply caseless_seq; auto using caseless_plus_digit, caseless_dot. Qed.

Lemma caseless_search r s :
  caseless r -> re_search_group false r (str_lower s) = re_search_group false r s.
Proof.
  intros Hr. unfold re_search_group.
  induction s as [|c s IH]; simpl.
  - specialize (Hr []). simpl in Hr. rewrite Hr. by destruct (re_match false r []) as [|[] ?].
  - specialize (Hr (c :: s)). simpl in Hr. rewrite Hr.
    destruct (re_match false r (c :: s)) as [|[m rest] ?]; simpl; [|done].
    fold (str_lower s).
    destruct (re_search false r (str_lower s)) as [[[? ?] ?]|],
             (re_search false r s) as [[[? ?] ?]|]; done.
Qed.

Lemma first_decimal_lower l : re_search_group false re_decimal (str_lower l) = first_decimal l.
Proof. apply caseless_search, caseless_decimal. Qed.

(** ** Substrings *)

Lemma str_in_head c p s : str_in (c :: p) s = true -> In c s.
Proof.
  induction s as [|b s IH]; simpl; [done|].
  intros [H|H]%orb_true_iff.
  - apply andb_true_iff in H as [H%bool_decide_eq_true _]. by left.
  - right. auto.
Qed.

Lemma not_detected_not_blank l : has_not_detected l = true -> is_blank l = false.
Proof.
  unfold has_not_detected, icontains, is_blank. intros H.
  apply str_in_head in H. rewrite <- forallb_is_space_lower.
  apply not_true_is_false. rewrite forallb_forall. intros Hall.
  by specialize (Hall _ H).
Qed.

(** ** The lexicon *)

Lemma load_list_lower column name : In name (load_list column) -> str_lower name = name.
Proof.
  unfold load_list. rewrite in_map_iff. intros (p & <- & _). apply str_lower_idem.
Qed.

(** ** The results loop *)

Section Results.

Variable pesticides_csv : list text.
Variable h : header.

Local Abbreviation PESTS := (PESTICIDES pesticides_csv).
Local Abbreviation loop := (results_loop pesticides_csv h).

Lemma pesticide_fold ll pests st :
  (fold_left (pesticide_step h ll) pests st).2
  = st.2 ++ (fold_left (pesticide_step h ll) pests (false, [])).2.
Proof.
  revert st. induction pests as [|pest pests IH]; intros st; simpl.
  - by rewrite app_nil_r.
  - rewrite IH. rewrite (IH (pesticide_step h ll (false, []) pest)).
    unfold pesticide_step. simpl.
    destruct (str_in pest ll); simpl; [|done].
    destruct (str_in "<loq" ll); simpl; [by rewrite <- app_assoc|].
    destruct (re_search_group false re_decimal ll); simpl; [by rewrite <- app_assoc | done].
Qed.

Lemma pesticide_fold_rows l pests rows b :
  (forall name, In name pests -> str_lower name = name) ->
  (fold_left (pesticide_step h (str_lower l)) pests (b, rows)).2
  = rows ++ analyte_rows h pests l.
Proof.
  revert rows b. induction pests as [|pest pests IH]; intros rows b Hlow; simpl.
  - by rewrite app_nil_r.
  - rewrite pesticide_fold.
    assert (Hp : str_lower pest = pest) by (apply Hlow; by left).
    assert (IH' := IH [] false (fun n Hn => Hlow n (or_intror Hn))). simpl in IH'.
    rewrite IH'. unfold pesticide_step at 1. simpl.
    unfold icontains at 1. rewrite Hp.
    destruct (str_in pest (str_lower l)); simpl; [|done].
    change (str_in "<loq" (str_lower l)) with (icontains "<loq" l).
    destruct (icontains "<loq" l); simpl; [by rewrite <- app_assoc|].
    rewrite first_decimal_lower.
    destruct (first_decimal l); simpl; [by rewrite <- app_assoc | done].
Qed.

(** Before the results section nothing is captured. *)
Lemma loop_before pre rest rows :
  Forall (fun l => has_results_of_analysis l = false) pre ->
  loop (pre ++ rest) false rows = loop rest false rows.
Proof.
  induction 1 as [|l pre Hl _ IH]; [done|]. simpl.
  change (str_in "results of analysis" (str_lower l)) with (has_results_of_analysis l).
  by rewrite Hl.
Qed.

(** The line that starts the section is consumed. *)
Lemma loop_start roa rest capture rows :
  has_results_of_analysis roa = true ->
  loop (roa :: rest) capture rows = loop rest true rows.
Proof.
  intros Hl. simpl.
  change (str_in "results of analysis" (str_lower roa)) with (has_results_of_analysis roa).
  by rewrite Hl.
Qed.

(** Inside the section, up to a stop. *)
Lemma loop_section sec rest rows :
  Forall (fun l => has_results_of_analysis l = true
                   \/ (has_measurement_uncertainty l = false /\ has_not_detected l = false)) sec ->
  loop (sec ++ rest) true rows = loop rest true (rows ++ section_rows h PESTS sec).
Proof.
  intros Hsec. revert rows.
  induction Hsec as [|l sec Hl _ IH]; intros rows; [by rewrite app_nil_r|].
  simpl.
  change (str_in "results of analysis" (str_lower l)) with (has_results_of_analysis l).
  change (str_in "measurement uncertainty" (str_lower l)) with (has_measurement_uncertainty l).
  change (str_in "not detected" (str_lower l)) with (has_not_detected l).
  rewrite is_empty_strip_lower.
  destruct (has_results_of_analysis l) eqn:Eroa.
  - rewrite orb_true_r. simpl. apply IH.
  - destruct Hl as [?|[Hmu Hnd]]; [done|]. rewrite Hmu, Hnd, orb_false_r.
    destruct (is_blank l); simpl; [apply IH|].
    rewrite pesticide_fold_rows by (intros; by eapply load_list_lower).
    rewrite app_assoc.
    by destruct (fold_left _ _ _).1; rewrite IH.
Qed.

(** The hard stop. *)
Lemma loop_stop mu rest rows :
  has_results_of_analysis mu = false ->
  has_measurement_uncertainty mu = true ->
  loop (mu :: rest) true rows = rows.
Proof.
  intros Hroa Hmu. simpl.
  change (str_in "results of analysis" (str_lower mu)) with (has_results_of_analysis mu).
  change (str_in "measurement uncertainty" (str_lower mu)) with (has_measurement_uncertainty mu).
  by rewrite Hroa, Hmu.
Qed.

(** The line that certifies the whole panel negative. *)
Lemma loop_not_detected nd rest rows :
  has_results_of_analysis nd = false ->
  has_measurement_uncertainty nd = false ->
  has_not_detected nd = true ->
  loop (nd :: rest) true rows = rows ++ [not_detected_row h].
Proof.
  intros Hroa Hmu Hnd. simpl.
  change (str_in "results of analysis" (str_lower nd)) with (has_results_of_analysis nd).
  change (str_in "measurement uncertainty" (str_lower nd)) with (has_measurement_uncertainty nd).
  change (str_in "not detected" (str_lower nd)) with (has_not_detected nd).
  rewrite Hroa, Hmu, Hnd, is_empty_strip_lower.
  by rewrite (not_detected_not_blank nd Hnd).
Qed.

(** C3 (as amended).  When the line that starts the results section is
    immediately followed by a line that contains "not detected" and neither
    "results of analysis" nor "measurement uncertainty", the extractor
    returns exactly the synthetic row, whatever the later lines hold. *)
Theorem not_detected_after_heading raw pre roa nd post :
  splitlines raw = pre ++ roa :: nd :: post ->
  Forall (fun l => has_results_of_analysis l = false) pre ->
  has_results_of_analysis roa = true ->
  has_not_detected nd = true ->
  has_results_of_analysis nd = false ->
  has_measurement_uncertainty nd = false ->
  extract_results_to_rows pesticides_csv raw h = [not_detected_row h].
Proof.
  intros Hlines Hpre Hroa Hnd Hnd_roa Hnd_mu.
  unfold extract_results_to_rows. rewrite Hlines.
  rewrite loop_before by done. rewrite loop_start by done.
  by rewrite loop_not_detected.
Qed.

(** C4 (as amended).  The section runs from the first line that contains
    "results of analysis" to the first later line that contains "measurement
    uncertainty" and not "results of analysis", or to the end of the text.
    When none of its lines contains "not detected" (a line that contains
    "results of analysis" again apart), the rows returned are those of its
    lines in order: nothing for a blank line or for a line that contains
    "results of analysis", and for any other line one row per matching
    analyte, "LOQ" with an empty unit when the line holds "<loq", else the
    first decimal of the line with "mg/kg", else no row. *)
Theorem results_section_rows raw pre roa sec tail :
  splitlines raw = pre ++ roa :: sec ++ tail ->
  Forall (fun l => has_results_of_analysis l = false) pre ->
  has_results_of_analysis roa = true ->
  Forall (fun l => has_results_of_analysis l = true
                   \/ (has_measurement_uncertainty l = false /\ has_not_detected l = false)) sec ->
  (tail = [] \/ exists mu rest, tail = mu :: rest /\ has_measurement_uncertainty mu = true
                                /\ has_results_of_analysis mu = false) ->
  extract_results_to_rows pesticides_csv raw h = section_rows h PESTS sec.
Proof.
  intros Hlines Hpre Hroa Hsec Htail.
  unfold extract_results_to_rows. rewrite Hlines.
  rewrite loop_before by done. rewrite loop_start by done.
  rewrite loop_section by done.
  destruct Htail as [->|(mu & rest & -> & Hmu & Hmu_roa)]; [done|].
  by rewrite loop_stop.
Qed.

(** C10 (as amended).  When, inside the results section, the first line that
    contains "not detected" (and neither "results of analysis" nor
    "measurement uncertainty") is reached, the synthetic row is appended to
    the rows of the lines before it and all are returned; it is the sole
    output exactly when those lines gave no row. *)
Theorem not_detected_appends raw pre roa mid nd post :
  splitlines raw = pre ++ roa :: mid ++ nd :: post ->
  Forall (fun l => has_results_of_analysis l = false) pre ->
  has_results_of_analysis roa = true ->
  Forall (fun l => has_results_of_analysis l = true
                   \/ (has_measurement_uncertainty l = false /\ has_not_detected l = false)) mid ->
  has_not_detected nd = true ->
  has_results_of_analysis nd = false ->
  has_measurement_uncertainty nd = false ->
  extract_results_to_rows pesticides_csv raw h
    = section_rows h PESTS mid ++ [not_detected_row h]
  /\ (extract_results_to_rows pesticides_csv raw h = [not_detected_row h]
      <-> section_rows h PESTS mid = []).
Proof.
  intros Hlines Hpre Hroa Hmid Hnd Hnd_roa Hnd_mu.
  assert (E : extract_results_to_rows pesticides_csv raw h
              = section_rows h PESTS mid ++ [not_detected_row h]).
  { unfold extract_results_to_rows. rewrite Hlines.
    rewrite loop_before by done. rewrite loop_start by done.
    rewrite loop_section by done. by rewrite loop_not_detected. }
  split; [done|]. rewrite E. split.
  - intros H. by apply (app_inv_tail [not_detected_row h] _ []).
  - by intros ->.
Qed.

End Results.

(** ** Instances and counterexamples of the results claims *)

Lemma not_detected_after_heading_witness :
  extract_results_to_rows ex_pesticides ex_negative ex_header = [not_detected_row ex_header].
Proof.
  apply (not_detected_after_heading ex_pesticides ex_header ex_negative
           ["Certificate Number: DOKKI-2024-002" : text]
           "Results of Analysis" "Pesticide residues: Not Detected"
           ["Chlorpyrifos 0.5 mg/kg" : text]).
  - vm_compute; reflexivity.
  - repeat constructor.
  - reflexivity.
  - reflexivity.
  - reflexivity.
  - reflexivity.
Defined.

(** C3, as stated, fails: the line after the heading contains "not
    detected", and no row is returned, because the line also contains
    "measurement uncertainty". *)
Lemma not_detected_after_heading_counterexample :
  splitlines ex_negative_uncertainty
    = [ "Results of Analysis" : text;
        "Not detected (measurement uncertainty not applicable)" : text;
        "Malathion 0.7 mg/kg" : text ]
  /\ has_results_of_analysis "Results of Analysis" = true
  /\ has_not_detected "Not detected (measurement uncertainty not applicable)" = true
  /\ extract_results_to_rows ex_pesticides ex_negative_uncertainty ex_header = [].
Proof. vm_compute. auto. Qed.

Lemma results_section_rows_witness :
  extract_results_to_rows ex_pesticides ex_section ex_header
  = [ ex_row "Chlorpyrifos" "0.023" "mg/kg";
      ex_row "Malathion" "LOQ" "";
      ex_row "Chlorpyrifos" "1.50" "mg/kg";
      ex_row "Malathion" "1.50" "mg/kg";
      ex_row "Chlorpyrifos" "0.023" "mg/kg" ].
Proof.
  rewrite (results_section_rows ex_pesticides ex_header ex_section
             ["Lot Number: 778" : text]
             "RESULTS OF ANALYSIS"
             [ "Chlorpyrifos 0.023 mg/kg" : text; "   " : text; "Malathion <LOQ" : text;
               "chlorpyrifos + MALATHION 12 1.50 0.7" : text; "Chlorpyrifos traces" : text;
               "Chlorpyrifos 0.023 mg/kg" : text ]
             [ "Measurement Uncertainty 5%" : text; "Malathion 9.9 mg/kg" : text ]).
  - vm_compute; reflexivity.
  - vm_compute; reflexivity.
  - repeat constructor.
  - reflexivity.
  - repeat (constructor; [right; split; reflexivity|]). constructor.
  - right. eexists _, _. repeat split.
Defined.

(** C4, as stated, fails: every non-blank line of this section, taken
    against the lexicon, would give the rows of the second list, and the
    extractor returns the first. *)
Lemma results_section_rows_counterexample :
  extract_results_to_rows ex_pesticides ex_mixed ex_header
    = [ ex_row "Chlorpyrifos" "0.5" "mg/kg"; not_detected_row ex_header ]
  /\ section_rows ex_header (PESTICIDES ex_pesticides)
       [ "Chlorpyrifos 0.5 mg/kg" : text; "Others: not detected" : text;
         "Malathion 0.7 mg/kg" : text ]
    = [ ex_row "Chlorpyrifos" "0.5" "mg/kg"; ex_row "Malathion" "0.7" "mg/kg" ].
Proof. vm_compute. auto. Qed.

Lemma not_detected_appends_witness :
  extract_results_to_rows ex_pesticides ex_mixed ex_header
    = section_rows ex_header (PESTICIDES ex_pesticides) ["Chlorpyrifos 0.5 mg/kg" : text]
      ++ [not_detected_row ex_header]
  /\ (extract_results_to_rows ex_pesticides ex_mixed ex_header = [not_detected_row ex_header]
      <-> section_rows ex_header (PESTICIDES ex_pesticides) ["Chlorpyrifos 0.5 mg/kg" : text] = []).
Proof.
  apply (not_detected_appends ex_pesticides ex_header ex_mixed
           [] "Results of Analysis" ["Chlorpyrifos 0.5 mg/kg" : text]
           "Others: not detected" ["Malathion 0.7 mg/kg" : text]).
  - vm_compute; reflexivity.
  - constructor.
  - reflexivity.
  - repeat (constructor; [right; split; reflexivity|]). constructor.
  - reflexivity.
  - reflexivity.
  - reflexivity.
Defined.

(** C10, as stated, fails: a row was emitted, a later line of the section
    contains "not detected", and no synthetic row is appended, because that
    line also contains "results of analysis". *)
Lemma not_detected_appends_counterexample :
  splitlines ex_repeated_heading
    = [ "Results of Analysis" : text; "Chlorpyrifos 0.5 mg/kg" : text;
        "Results of analysis: not detected" : text ]
  /\ has_not_detected "Results of analysis: not detected" = true
  /\ extract_results_to_rows ex_pesticides ex_repeated_heading ex_header
     = [ ex_row "Chlorpyrifos" "0.5" "mg/kg" ].
Proof. vm_compute. auto. Qed.

(** ** What the matcher returns *)

Lemma plus_splits_spec p s a r :
  In (a, r) (plus_splits p s) -> a <> [] /\ forallb p a = true /\ s = a ++ r.
Proof.
  revert a r. induction s as [|c s IH]; intros a r; simpl; [done|].
  destruct (p c) eqn:Ec; [|done].
  rewrite in_app_iff, in_map_iff. intros [([a' r'] & [= <- <-] & Hin)|[[= <- <-]|[]]].
  - destruct (IH _ _ Hin) as (_ & Hall & ->). simpl. by rewrite Ec, Hall.
  - simpl. by rewrite Ec.
Qed.

Lemma lit_match_spec lit s m r :
  In (m, r) (lit_match false lit s) -> m = lit /\ s = lit ++ r.
Proof.
  unfold lit_match, text_eqb. case_bool_decide as E; [|done].
  intros [[= <- <-]|[]]. split; [done|]. by rewrite <- E at 1; rewrite take_drop.
Qed.

Lemma re_search_group_match ic r s m :
  re_search_group ic r s = Some m -> exists s' rest, In (m, rest) (re_match ic r s').
Proof.
  unfold re_search_group. revert m. induction s as [|c s IH]; intros m; simpl.
  - destruct (re_match ic r []) as [|[m' rest] ?] eqn:E; [done|].
    intros [= <-]. exists [], rest. rewrite E. by left.
  - destruct (re_match ic r (c :: s)) as [|[m' rest] ?] eqn:E.
    + destruct (re_search ic r s) as [[[? m'] ?]|]; [|done].
      intros [= <-]. by apply IH.
    + intros [= <-]. exists (c :: s), rest. rewrite E. by left.
Qed.

Lemma re_lot_match_nonempty s m r : In (m, r) (re_match false re_lot s) -> m <> [].
Proof.
  simpl. rewrite in_flat_map. intros ([a r1] & Ha & Hb).
  apply plus_splits_spec in Ha as (Ha & _). apply in_map_iff in Hb as ([b r2] & [= <- _] & _).
  simpl. by destruct a.
Qed.

Lemma re_dokki_match s m r :
  In (m, r) (re_match false re_dokki s) ->
  exists t, m = ("dokki" : text) ++ t /\ forallb is_dash_or_digit t = true.
Proof.
  simpl. rewrite in_flat_map. intros ([a r1] & Ha & Hb).
  apply lit_match_spec in Ha as [-> _]. apply in_map_iff in Hb as ([b r2] & [= <- _] & Hb).
  apply plus_splits_spec in Hb as (_ & Hb & _). by exists b.
Qed.


(** ** Replacement *)

(** Where [old] does not occur, nothing is replaced. *)
Lemma replace_absent old new s : str_in old s = false -> str_replace old new s = s.
Proof.
  unfold str_replace. induction s as [|c s IH]; [done|].
  cbn [str_in replace_from]. intros [-> Hs]%orb_false_iff. by rewrite IH.
Qed.

Lemma startswith_pdf_app c s :
  startswith ".pdf" (c :: s) = false -> startswith ".pdf" (c :: s ++ ".pdf") = false.
Proof.
  change (".pdf" : text) with ["."; "p"; "d"; "f"]%char.
  destruct s as [|c1 [|c2 [|c3 s]]]; simpl;
    repeat case_bool_decide; subst; simpl; try done.
Qed.

(** In a name ending in ".pdf" with no other ".pdf" in it, the extension is
    what [replace] replaces. *)
Lemma replace_pdf_suffix new stem :
  str_in ".pdf" stem = false ->
  str_replace ".pdf" new (stem ++ ".pdf") = stem ++ new.
Proof.
  unfold str_replace. induction stem as [|c stem IH].
  - intros _. change (replace_from ".pdf" new 0 ([] ++ ".pdf")) with (new ++ []).
    by rewrite app_nil_r.
  - cbn [str_in]. intros [Hc Hstem]%orb_false_iff.
    cbn [app replace_from]. rewrite (startswith_pdf_app c stem Hc). by rewrite IH.
Qed.

Lemma startswith_dot0_app c s :
  startswith ".0" (c :: s) = false -> startswith ".0" (c :: s ++ ".0") = false.
Proof.
  change (".0" : text) with ["."; "0"]%char.
  destruct s as [|c1 s]; simpl; repeat case_bool_decide; subst; simpl; try done.
Qed.

(** A text ending in ".0" with no other ".0" in it loses that ending. *)
Lemma replace_dot0_suffix stem :
  str_in ".0" stem = false -> str_replace ".0" "" (stem ++ ".0") = stem.
Proof.
  unfold str_replace. induction stem as [|c stem IH].
  - intros _. reflexivity.
  - cbn [str_in]. intros [Hc Hstem]%orb_false_iff.
    cbn [app replace_from]. rewrite (startswith_dot0_app c stem Hc). by rewrite IH.
Qed.

Lemma dash_digit_not_d c : is_dash_or_digit c = true -> bool_decide ("d"%char = c) = false.
Proof. by_chars c. Qed.

Lemma replace_dokki_tail t :
  forallb is_dash_or_digit t = true -> replace_from "dokki" "Dokki" 0 t = t.
Proof.
  induction t as [|c t IH]; [done|]. simpl. intros [Hc Ht]%andb_true_iff.
  change (startswith "dokki" (c :: t)) with (bool_decide ("d"%char = c) && startswith "okki" t).
  rewrite (dash_digit_not_d c Hc). simpl. by rewrite IH.
Qed.

Lemma replace_dokki t :
  forallb is_dash_or_digit t = true ->
  str_replace "dokki" "Dokki" (("dokki" : text) ++ t) = ("Dokki" : text) ++ t.
Proof.
  intros Ht. unfold str_replace.
  change (replace_from "dokki" "Dokki" 0 (("dokki" : text) ++ t))
    with (("Dokki" : text) ++ replace_from "dokki" "Dokki" 0 t).
  by rewrite replace_dokki_tail.
Qed.

Lemma cert_search s :
  match re_search_group false re_dokki s with
  | Some m => str_replace "dokki" "Dokki" m = ("Dokki" : text) ++ drop 5 m
              /\ str_replace "dokki" "Dokki" m <> []
  | None => True
  end.
Proof.
  destruct (re_search_group false re_dokki s) as [m|] eqn:E; [|done].
  apply re_search_group_match in E as (s' & rest & (t & -> & Ht)%re_dokki_match).
  rewrite replace_dokki by done. done.
Qed.

Lemma lot_search s m : re_search_group false re_lot s = Some m -> m <> [].
Proof.
  intros (s' & rest & H)%re_search_group_match. by eapply re_lot_match_nonempty.
Qed.

(** ** The header loop *)

Lemma cert_of_line_nonempty l : cert_of_line l <> Some [].
Proof.
  unfold cert_of_line. destruct (icontains _ l); [|done].
  by destruct (re_search_group false re_dokki (str_lower l)).
Qed.

Lemma lot_of_line_nonempty l : lot_of_line l <> Some [].
Proof.
  unfold lot_of_line. destruct (icontains _ l); [|done].
  destruct (re_search_group false re_lot l) as [m|] eqn:E; [|done].
  intros [= ->]. by apply (lot_search l []).
Qed.

(** One turn of the loop keeps a field that is set, and sets an empty one to
    what the line gives. *)
Lemma header_step_eq st l :
  header_step st l
  = (if is_empty st.1 then default [] (cert_of_line l) else st.1,
     if is_empty st.2 then default [] (lot_of_line l) else st.2).
Proof.
  destruct st as [cert lot]. unfold header_step, cert_of_line, lot_of_line. cbn [fst snd].
  change (str_in "certificate number" (str_lower l)) with (icontains "certificate number" l).
  change (str_in "lot number" (str_lower l)) with (icontains "lot number" l).
  f_equal.
  - pose proof (cert_search (str_lower l)) as Hc.
    destruct (icontains "certificate number" l), cert; cbn [andb]; try done.
    destruct (re_search_group false re_dokki (str_lower l)); [by destruct Hc as [-> _]|done].
  - destruct (icontains "lot number" l), lot; cbn [andb]; try done.
Qed.

Lemma header_fold lines st :
  fold_left header_step lines st
  = (if is_empty st.1 then default [] (first_found cert_of_line lines) else st.1,
     if is_empty st.2 then default [] (first_found lot_of_line lines) else st.2).
Proof.
  revert st. induction lines as [|l lines IH]; intros [cert lot]; cbn [fold_left first_found].
  - by destruct cert, lot.
  - rewrite IH, header_step_eq. cbn [fst snd].
    pose proof (cert_of_line_nonempty l). pose proof (lot_of_line_nonempty l).
    destruct (cert_of_line l) as [[|??]|], (lot_of_line l) as [[|??]|]; try done;
      by destruct cert, lot.
Qed.

(** ** The sample *)

Lemma sample_from_products_spec names raw :
  (forall name, In name names -> str_lower name = name) ->
  sample_from_products names (str_lower raw)
  = match first_name_in names raw with
    | Some name => str_title name
    | None => []
    end.
Proof.
  unfold first_name_in. induction names as [|name names IH]; intros Hlow; simpl; [done|].
  unfold icontains at 1. rewrite (Hlow name) by (by left).
  destruct (str_in name (str_lower raw)); [done|]. apply IH. intros; apply Hlow; by right.
Qed.

Lemma lower_char_not_colon a c :
  lower_char c = a -> a <> ":"%char -> bool_decide (c = ":"%char) = false.
Proof. intros <- H. apply bool_decide_eq_false. intros ->. by apply H. Qed.

Lemma lower_char_colon c : lower_char c = ":"%char -> c = ":"%char.
Proof. by_chars c. Qed.

Lemma startswith_length p s : startswith p s = true -> length p <= length s.
Proof.
  revert s. induction p as [|a p IH]; intros [|c s]; simpl; try done; [lia|].
  intros [_ H]%andb_true_iff. apply IH in H. lia.
Qed.

(** On a line that begins with "sample :", [split(":", 1)] has a second
    part: the text after the first eight characters. *)
Lemma split_sample_line l :
  startswith "sample :" (str_lower l) = true -> split_once ":" l !! 1 = Some (drop 8 l).
Proof.
  intros H. unfold split_once.
  pose proof (startswith_length _ _ H) as Hlen. rewrite str_lower_length in Hlen.
  change ("sample :" : text) with ["s"; "a"; "m"; "p"; "l"; "e"; " "; ":"]%char in H.
  do 8 (destruct l as [|? l]; [simpl in Hlen; lia|]).
  simpl in H.
  repeat (apply andb_true_iff in H as [?%bool_decide_eq_true H]).
  simpl.
  repeat (erewrite lower_char_not_colon; [|symmetry; eassumption|done]).
  by erewrite (lower_char_colon a6), bool_decide_eq_true_2.
Qed.

Lemma startswith_take p s : startswith p s = text_eqb (take (length p) s) p.
Proof.
  unfold text_eqb. revert s. induction p as [|a p IH]; intros s; simpl.
  - done.
  - destruct s as [|c s]; simpl; [done|]. rewrite IH.
    repeat case_bool_decide; simpl; congruence.
Qed.

Lemma lit_match_ci lit s :
  str_lower lit = lit ->
  lit_match true lit s
  = if startswith lit (str_lower s) then [(take (length lit) s, drop (length lit) s)] else [].
Proof.
  intros Hlit. unfold lit_match. rewrite Hlit, startswith_take.
  unfold str_lower at 2. by rewrite firstn_map.
Qed.

Lemma sample_stop_match s :
  re_match true re_sample_stop s = []
  <-> match s with
      | [] => True
      | c :: _ =>
          startswith "fax" (str_lower s) || startswith "phone" (str_lower s)
          || startswith "id" (str_lower s) || is_digit c = false
      end.
Proof.
  destruct s as [|c s]; [by vm_compute|].
  unfold re_sample_stop. cbn [re_match]. rewrite !lit_match_ci by done.
  set (b1 := startswith "fax" _). set (b2 := startswith "phone" _).
  set (b3 := startswith "id" _).
  destruct b1, b2, b3, (is_digit c); simpl; split; intros; congruence.
Qed.

Lemma re_split_head_stop s : re_split_head true re_sample_stop s = before_stop s.
Proof.
  unfold re_split_head.
  assert (H : match re_search true re_sample_stop s with
              | Some (pre, _, _) => pre = before_stop s
              | None => s = before_stop s
              end); [|by destruct (re_search _ _ s) as [[[??]?]|]].
  induction s as [|c s IH].
  - done.
  - cbn [re_search before_stop].
    pose proof (sample_stop_match (c :: s)) as Hm.
    destruct (re_match true re_sample_stop (c :: s)) as [|[m rest] ?].
    + destruct Hm as [Hm _]. rewrite (Hm eq_refl).
      destruct (re_search true re_sample_stop s) as [[[??]?]|]; congruence.
    + destruct (_ || _ || _ || _); [done|]. by destruct Hm as [_ Hm]; specialize (Hm eq_refl).
Qed.

Lemma sample_from_lines_spec lines :
  sample_from_lines lines = Ok (default [] (first_found sample_of_line lines)).
Proof.
  induction lines as [|l lines IH]; [done|].
  cbn [sample_from_lines first_found]. unfold sample_of_line at 1.
  destruct (startswith "sample :" (str_lower l)) eqn:E; [|exact IH].
  by rewrite (split_sample_line l E), re_split_head_stop.
Qed.

(** ** The header fields *)

Section Header.

Variable products_csv : list text.

Lemma extract_header_fields_spec raw :
  extract_header_fields products_csv raw
  = Ok {| CertificateNumber := default [] (first_found cert_of_line (splitlines raw));
          Sample :=
            match first_name_in (PRODUCTS products_csv) raw with
            | Some (c :: name) => str_title (c :: name)
            | _ => default [] (first_found sample_of_line (splitlines raw))
            end;
          LotNumber := default [] (first_found lot_of_line (splitlines raw)) |}.
Proof.
  unfold extract_header_fields. rewrite header_fold.
  rewrite sample_from_products_spec by (intros; by eapply load_list_lower).
  rewrite sample_from_lines_spec.
  by destruct (first_name_in (PRODUCTS products_csv) raw) as [[|c name]|].
Qed.

Lemma first_found_app {A} (f : text -> option A) pre rest :
  Forall (fun l => f l = None) pre -> first_found f (pre ++ rest) = first_found f rest.
Proof. induction 1 as [|l pre Hl _ IH]; [done|]. simpl. by rewrite Hl. Qed.

(** What the loop over the lines computes.  The extractor never raises.
    LotNumber is what the first line gives that contains "lot number" and
    the pattern, the pattern being looked for from the left end of the line;
    later lines are ignored.  CertificateNumber is found the same way.  A
    field that no line gives is the empty string. *)
Lemma header_first_match_wins raw :
  exists hd,
    extract_header_fields products_csv raw = Ok hd
    /\ LotNumber hd = default [] (first_found lot_of_line (splitlines raw))
    /\ CertificateNumber hd = default [] (first_found cert_of_line (splitlines raw))
    /\ (forall pre post,
          splitlines raw = pre ++ ("Lot Number: 12345" : text) :: post ->
          Forall (fun l => lot_of_line l = None) pre ->
          LotNumber hd = "12345").
Proof.
  eexists. split; [apply extract_header_fields_spec|]. simpl.
  repeat split. intros pre post -> Hpre. by rewrite first_found_app.
Qed.


End Header.

(** C6.  The code misses the lot number it looks for.  The pattern is
    searched on the whole line and not after the phrase "lot number": on a
    line that holds the certificate number before it, LotNumber is cut out of
    the certificate number, and on a line that begins with a sample id it is
    that id.  The line that holds the phrase alone gives the number that
    follows it. *)
Theorem lot_number_taken_before_phrase :
  extract_header_fields ex_products ex_shared_line
  = Ok {| CertificateNumber := "Dokki-2024-001"; Sample := ""; LotNumber := "2024" |}
  /\ extract_header_fields ex_products "Sample ID 4471 Lot Number: 12345"
     = Ok {| CertificateNumber := ""; Sample := ""; LotNumber := "4471" |}
  /\ extract_header_fields ex_products "Lot Number: 778"
     = Ok {| CertificateNumber := ""; Sample := ""; LotNumber := "778" |}.
Proof. vm_compute. auto. Qed.


(** ** Digit runs *)

Lemma findall_steps_nil n r : findall_steps n r [] = [].
Proof. by destruct n. Qed.

Lemma plus_splits_head p c s :
  p c = true ->
  exists a r tl,
    plus_splits p (c :: s) = (a, r) :: tl
    /\ c :: s = a ++ r /\ a <> [] /\ forallb p a = true
    /\ match r with [] => True | d :: _ => p d = false end.
Proof.
  revert c. induction s as [|d s IH]; intros c Hc; simpl; rewrite Hc.
  - exists [c], [], []. simpl. by rewrite Hc.
  - destruct (p d) eqn:Hd.
    + destruct (IH d Hd) as (a & r & tl & E & Hs & _ & Ha & Hr).
      simpl in E. rewrite Hd in E. rewrite E. simpl.
      eexists (c :: a), r, _. split; [done|]. simpl. rewrite Hc, Ha, Hs. done.
    + exists [c], (d :: s), []. simpl. by rewrite Hc, Hd.
Qed.

Lemma digit_runs_from_run cur run rest :
  forallb is_digit run = true ->
  digit_runs_from cur (run ++ rest) = digit_runs_from (cur ++ run) rest.
Proof.
  revert cur. induction run as [|c run IH]; intros cur; simpl.
  - by rewrite app_nil_r.
  - intros [-> H]%andb_true_iff. rewrite IH by done. by rewrite <- app_assoc.
Qed.

Lemma findall_digit_runs n s : length s <= n -> findall_steps n re_digits s = digit_runs s.
Proof.
  revert s. induction n as [|n IH]; intros s Hn.
  - destruct s; [done|simpl in Hn; lia].
  - destruct s as [|c s]; [done|]. unfold digit_runs. cbn [findall_steps re_match re_digits].
    destruct (is_digit c) eqn:Hc.
    + destruct (plus_splits_head is_digit c s Hc) as (a & r & tl & -> & Hs & Ha & Hda & Hr).
      rewrite Hs, digit_runs_from_run by done. simpl.
      assert (length r <= n).
      { apply (f_equal length) in Hs. rewrite length_app in Hs. simpl in Hs.
        destruct a; [done|]. simpl in Hs, Hn. lia. }
      rewrite IH by done. unfold digit_runs.
      destruct r as [|d r]; simpl.
      * by destruct a.
      * rewrite Hr. by destruct a.
    + cbn [plus_splits digit_runs_from]. rewrite Hc. simpl in Hn. by rewrite IH by lia.
Qed.

(** [re.findall(r"\d+", s)] lists the maximal runs of digits of [s]. *)
Lemma re_findall_digits s : re_findall re_digits s = digit_runs s.
Proof. by apply findall_digit_runs. Qed.

Lemma digit_runs_from_digits cur s x :
  forallb is_digit cur = true -> In x (digit_runs_from cur s) ->
  x <> [] /\ forallb is_digit x = true.
Proof.
  revert cur. induction s as [|c s IH]; intros cur Hcur; simpl.
  - unfold is_empty. case_bool_decide; [done|]. intros [<-|[]]. done.
  - destruct (is_digit c) eqn:Hc.
    + apply IH. by rewrite forallb_app, Hcur; simpl; rewrite Hc.
    + rewrite in_app_iff. intros [H|H]; [|by apply (IH [])].
      revert H. unfold is_empty. case_bool_decide; [done|]. intros [<-|[]]. done.
Qed.

Lemma digit_runs_digits s x : In x (digit_runs s) -> x <> [] /\ forallb is_digit x = true.
Proof. by apply digit_runs_from_digits. Qed.

Lemma digit_not_space c : is_digit c = true -> is_space c = false.
Proof. by_chars c. Qed.

Lemma lstrip_digits x : forallb is_digit x = true -> lstrip x = x.
Proof.
  destruct x as [|c x]; [done|]. simpl. intros [Hc _]%andb_true_iff.
  by rewrite (digit_not_space c Hc).
Qed.

Lemma str_strip_digits x : forallb is_digit x = true -> str_strip x = x.
Proof.
  intros H. unfold str_strip, rstrip. rewrite (lstrip_digits x H).
  rewrite lstrip_digits by (by rewrite forallb_rev). apply rev_involutive.
Qed.

(** ** The reference table *)

Lemma explode_records r ids :
  (forall x, In x ids -> str_strip x = x) ->
  map (fun ro : xl_row * option text => {| Lot_external := lot_external_str ro.2; xl := ro.1 |})
      (List.filter notna (explode r ids))
  = records_of r ids.
Proof.
  intros Hids. destruct ids as [|x ids]; [done|].
  unfold explode, records_of. generalize dependent (x :: ids). clear.
  induction l as [|y l IH]; intros Hids; simpl; [done|].
  rewrite (Hids y) by (by left). f_equal. apply IH. intros; apply Hids; by right.
Qed.

Lemma lot_external_cell_digits r x :
  In x (lot_external_cell r) -> x <> [] /\ forallb is_digit x = true.
Proof. unfold lot_external_cell. rewrite re_findall_digits. apply digit_runs_digits. Qed.

Lemma df_records sheets :
  df sheets = flat_map (fun r => records_of r (lot_external_cell r)) (concat sheets).
Proof.
  unfold df. induction (concat sheets) as [|r rows IH]; [done|]. simpl.
  rewrite List.filter_app, map_app, IH. f_equal.
  apply explode_records. intros x Hx. apply str_strip_digits. by eapply lot_external_cell_digits.
Qed.

(** ** Distinct values *)

Lemma unique_from_spec seen l :
  NoDup (unique_from seen l)
  /\ forall x, In x (unique_from seen l) <-> In x l /\ ~ In x seen.
Proof.
  revert seen. induction l as [|y l IH]; intros seen; simpl.
  - split; [constructor|]. tauto.
  - case_bool_decide as Hy; rewrite list_elem_of_In in Hy.
    + destruct (IH seen) as [Hnd Hin]. split; [done|]. intros x. rewrite Hin.
      split; [tauto|]. intros [[<-|?] ?]; tauto.
    + destruct (IH (y :: seen)) as [Hnd Hin]. split.
      * apply NoDup_cons. split; [|done]. rewrite list_elem_of_In, Hin. simpl. tauto.
      * intros x. simpl. rewrite Hin. simpl.
        destruct (decide (x = y)) as [->|]; intuition congruence.
Qed.

Lemma unique_spec l : NoDup (unique l) /\ forall x, In x (unique l) <-> In x l.
Proof.
  destruct (unique_from_spec [] l) as [Hnd Hin]. split; [done|].
  intros x. rewrite Hin. simpl. tauto.
Qed.

Lemma filter_filter_impl {A} (p q : A -> bool) l :
  (forall y, p y = true -> q y = true) ->
  List.filter p (List.filter q l) = List.filter p l.
Proof.
  intros Hpq. induction l as [|a l IH]; [done|]. cbn [List.filter].
  destruct (q a) eqn:Hq; cbn [List.filter]; rewrite IH; [done|].
  destruct (p a) eqn:Hp; [|done]. apply Hpq in Hp. congruence.
Qed.

Lemma filter_filter_and {A} (p q : A -> bool) l :
  List.filter p (List.filter q l) = List.filter (fun y => p y && q y) l.
Proof.
  induction l as [|a l IH]; [done|]. cbn [List.filter].
  destruct (q a) eqn:Hq; cbn [List.filter]; rewrite IH.
  - by rewrite andb_true_r.
  - by rewrite andb_false_r.
Qed.

(** [unique] lists the values where they first occur. *)
Lemma unique_from_distinct seen l :
  unique_from seen l
  = List.filter (fun y => negb (bool_decide (y ∈ seen))) (distinct l).
Proof.
  revert seen. induction l as [|x l IH]; intros seen; [done|].
  cbn [unique_from distinct List.filter]. case_bool_decide as Hx; cbn [negb].
  - rewrite IH. symmetry. apply filter_filter_impl. intros y Hy.
    apply negb_true_iff, bool_decide_eq_false in Hy. unfold text_eqb.
    apply negb_true_iff, bool_decide_eq_false. congruence.
  - f_equal. rewrite IH, filter_filter_and. apply filter_ext. intros y.
    unfold text_eqb. rewrite <- negb_orb. f_equal.
    apply eq_true_iff_eq. rewrite orb_true_iff, !bool_decide_eq_true, elem_of_cons.
    tauto.
Qed.

Lemma unique_distinct l : unique l = distinct l.
Proof.
  unfold unique. rewrite unique_from_distinct.
  induction (distinct l) as [|y d IH]; [done|]. cbn [List.filter].
  rewrite bool_decide_eq_false_2 by apply not_elem_of_nil. cbn [negb]. by rewrite IH.
Qed.

Lemma str_join_joined sep parts : str_join sep parts = joined sep parts.
Proof.
  induction parts as [|p [|q rest] IH];
    [done|cbn [str_join joined flat_map]; by rewrite app_nil_r|].
  change (str_join sep (p :: q :: rest)) with (p ++ sep ++ str_join sep (q :: rest)).
  rewrite IH. cbn [joined flat_map]. by rewrite <- app_assoc.
Qed.


(** ** Reconciliation *)

Lemma reconcile_spec sheets raw :
  reconcile sheets raw
  = match List.filter (fun r => isin (Lot_external r) (digit_runs raw)) (df sheets) with
    | [] => Raise LotNotFound
    | r0 :: rest =>
        Ok (supplier_name (xl r0),
            str_join " / " (unique (map (fun r => internal_lot (xl r)) (r0 :: rest))))
    end.
Proof.
  unfold reconcile. rewrite re_findall_digits.
  by destruct (List.filter _ (df sheets)).
Qed.

(** ** The folders *)

Lemma fs_insert_eq (m : files) k v : <[k := v]> m !! k = Some v.
Proof. apply (lookup_insert_eq (M := gmap (folder * text))). Qed.

Lemma fs_insert_ne (m : files) k k' v : k <> k' -> <[k := v]> m !! k' = m !! k'.
Proof. apply (lookup_insert_ne (M := gmap (folder * text))). Qed.

Lemma fs_delete_eq (m : files) k : delete k m !! k = None.
Proof. apply (lookup_delete_eq (M := gmap (folder * text))). Qed.

Lemma fs_delete_ne (m : files) k k' : k <> k' -> delete k m !! k' = m !! k'.
Proof. apply (lookup_delete_ne (M := gmap (folder * text))). Qed.

Lemma exists_some (b : text) : bool_decide (is_Some (Some b)) = true.
Proof. by apply bool_decide_eq_true_2. Qed.

Lemma exists_none : bool_decide (is_Some (@None text)) = false.
Proof. apply bool_decide_eq_false_2. by intros []. Qed.

Create Rewrite HintDb folders.
Hint Rewrite fs_insert_eq fs_delete_eq exists_some exists_none : folders.
Hint Rewrite fs_insert_ne fs_delete_ne using done : folders.

(** ** The loop body, step by step *)

Section Pipeline.

Variable products_csv : list text.
Variable pesticides_csv : list text.
Variable sheets : list (list xl_row).
Variable sha256_hex : text -> text.
Variable ocr : text -> option text.
Variable annotate : text -> text -> text -> option text.
Variable csv_of : list row -> text.
Variable datetime_now : list step -> text.

Local Abbreviation run :=
  (process_file products_csv pesticides_csv sheets sha256_hex ocr annotate csv_of datetime_now).

Local Abbreviation lookup_steps := (steps_lookup sha256_hex).
Local Abbreviation csv_written := (with_csv csv_of).

(** The file is not in the inbound folder: the move raises. *)
Lemma run_not_acquired w file :
  fs w !! (INBOX, file) = None ->
  run file w
  = (Ok tt,
     match fs w !! (PROC, file) with
     | Some b' =>
         {| fs := filed ERR file b' (fs w);
            processed := processed w;
            trace := trace w ++ [Moved (PROC, file) (ERR, file);
                                 ErrorPrinted file (FileNotFoundError file)] |}
     | None =>
         {| fs := fs w; processed := processed w;
            trace := trace w ++ [ErrorPrinted file (FileNotFoundError file)] |}
     end).
Proof.
  intros Hin. unfold_body. exec.
  destruct (fs w !! (PROC, file)) as [b'|] eqn:E; exec; by rewrite <- ?app_assoc.
Qed.

(** The hash is in the ledger. *)
Lemma run_duplicate w file b :
  fs w !! (INBOX, file) = Some b ->
  in_ledger (sha256_hex b) w = true ->
  run file w
  = (Ok tt,
     {| fs := filed DONE file b (acquired file b (fs w));
        processed := processed w;
        trace := trace w ++ lookup_steps file b ++ [Moved (PROC, file) (DONE, file)] |}).
Proof.
  intros Hin Hdup. unfold in_ledger in Hdup.
  unfold_body. exec. rewrite Hdup. exec.
  by rewrite <- !app_assoc.
Qed.

(** OCR raises. *)
Lemma run_ocr_failed w file b :
  fs w !! (INBOX, file) = Some b ->
  in_ledger (sha256_hex b) w = false ->
  ocr b = None ->
  run file w
  = (Ok tt, failed w file b (acquired file b (fs w))
              (lookup_steps file b ++ [OcrRun (PROC, file)]) OcrError).
Proof.
  intros Hin Hdup Hocr. unfold in_ledger in Hdup.
  unfold_body. exec. rewrite Hdup. exec. rewrite Hocr. exec.
  by rewrite <- !app_assoc.
Qed.

(** Reconciliation raises. *)
Lemma run_reconcile_failed w file b raw hd e :
  fs w !! (INBOX, file) = Some b ->
  in_ledger (sha256_hex b) w = false ->
  ocr b = Some raw ->
  extract_header_fields products_csv raw = Ok hd ->
  reconcile sheets raw = Raise e ->
  let rows := extract_results_to_rows pesticides_csv raw hd in
  run file w
  = (Ok tt, failed w file b (csv_written file rows (acquired file b (fs w)))
              (lookup_steps file b ++ steps_extract file rows) e).
Proof.
  intros Hin Hdup Hocr Hhd Hrec rows. unfold in_ledger in Hdup.
  unfold_body. exec. rewrite Hdup. exec. rewrite Hocr. exec. rewrite Hhd. exec.
  fold rows. rewrite Hrec.
  case_bool_decide; exec; by rewrite <- !app_assoc.
Qed.

(** The annotator raises. *)
Lemma run_annotation_failed w file b raw hd sup lots :
  fs w !! (INBOX, file) = Some b ->
  in_ledger (sha256_hex b) w = false ->
  ocr b = Some raw ->
  extract_header_fields products_csv raw = Ok hd ->
  reconcile sheets raw = Ok (sup, lots) ->
  annotate b sup lots = None ->
  let rows := extract_results_to_rows pesticides_csv raw hd in
  run file w
  = (Ok tt, failed w file b (csv_written file rows (acquired file b (fs w)))
              (lookup_steps file b ++ steps_extract file rows ++ [Reconciled])
              AnnotationError).
Proof.
  intros Hin Hdup Hocr Hhd Hrec Hann rows. unfold in_ledger in Hdup.
  unfold_body. exec. rewrite Hdup. exec. rewrite Hocr. exec. rewrite Hhd. exec.
  fold rows. rewrite Hrec.
  case_bool_decide; exec; rewrite Hann; exec; by rewrite <- !app_assoc.
Qed.

(** Every step succeeds. *)
Lemma run_succeeded w file b raw hd sup lots out :
  fs w !! (INBOX, file) = Some b ->
  in_ledger (sha256_hex b) w = false ->
  ocr b = Some raw ->
  extract_header_fields products_csv raw = Ok hd ->
  reconcile sheets raw = Ok (sup, lots) ->
  annotate b sup lots = Some out ->
  let rows := extract_results_to_rows pesticides_csv raw hd in
  let steps :=
    lookup_steps file b ++ steps_extract file rows
    ++ [Reconciled; Annotated (annotated_path file); Printed (annotated_path file);
        Moved (PROC, file) (DONE, file)] in
  run file w
  = (Ok tt,
     {| fs := filed DONE file b
                (<[annotated_path file := out]> (csv_written file rows (acquired file b (fs w))));
        processed :=
          processed w
          ++ [{| filehash := sha256_hex b; filename := file;
                 processed_at := datetime_now (trace w ++ steps) |}];
        trace := trace w ++ steps ++ [LedgerInsert (sha256_hex b) file] |}).
Proof.
  intros Hin Hdup Hocr Hhd Hrec Hann rows steps. subst steps. unfold in_ledger in Hdup.
  unfold_body. exec. rewrite Hdup. exec. rewrite Hocr. exec. rewrite Hhd. exec.
  fold rows. rewrite Hrec.
  case_bool_decide; exec; rewrite Hann; exec; rewrite Hdup; by rewrite <- !app_assoc.
Qed.

(** The loop body always returns, along one of its six paths. *)
Lemma run_paths w file :
  exists w', run file w = (Ok tt, w')
             /\ body_path products_csv pesticides_csv sheets sha256_hex ocr annotate csv_of
                  datetime_now w file w'.
Proof.
  destruct (fs w !! (INBOX, file)) as [b|] eqn:Hin.
  2: { eexists. split; [by apply run_not_acquired|by constructor]. }
  destruct (in_ledger (sha256_hex b) w) eqn:Hdup.
  { eexists. split; [by apply run_duplicate|by constructor]. }
  destruct (ocr b) as [raw|] eqn:Hocr.
  2: { eexists. split; [by apply run_ocr_failed|by constructor]. }
  pose proof (extract_header_fields_spec products_csv raw) as Hhd.
  destruct (reconcile sheets raw) as [[sup lots]|e] eqn:Hrec.
  2: { eexists. split; [by eapply run_reconcile_failed|by econstructor]. }
  destruct (annotate b sup lots) as [out|] eqn:Hann.
  - eexists. split; [by eapply run_succeeded|by econstructor].
  - eexists. split; [by eapply run_annotation_failed|by econstructor].
Qed.

(** ** The ledger *)

Lemma new_steps_app w w' steps : trace w' = trace w ++ steps -> new_steps w w' = steps.
Proof. unfold new_steps. intros ->. by rewrite drop_app_length. Qed.

Lemma in_ledger_false h w : in_ledger h w = false -> ~ In h (map filehash (processed w)).
Proof.
  unfold in_ledger. intros H (r & <- & Hr)%in_map_iff.
  apply not_true_iff_false in H. apply H, existsb_exists. exists r. split; [done|].
  by apply bool_decide_eq_true_2.
Qed.

Lemma NoDup_snoc {A} (l : list A) x : NoDup l -> ~ In x l -> NoDup (l ++ [x]).
Proof.
  intros Hl Hx. apply NoDup_app. split; [done|]. split; [|apply NoDup_singleton].
  intros y Hy ->%list_elem_of_singleton. by apply Hx, list_elem_of_In.
Qed.

(** What the folders hold once a file is filed. *)
Lemma filed_lookup d file b m :
  filed d file b m !! (d, file) = Some b
  /\ (d <> PROC -> filed d file b m !! (PROC, file) = None)
  /\ forall p, p <> (d, file) -> p <> (PROC, file) -> filed d file b m !! p = m !! p.
Proof.
  unfold filed. split; [apply fs_insert_eq|]. split.
  - intros Hd. rewrite fs_insert_ne by congruence. apply fs_delete_eq.
  - intros p H1 H2. rewrite fs_insert_ne by done. by apply fs_delete_ne.
Qed.

Lemma acquired_lookup file b m :
  acquired file b m !! (INBOX, file) = None
  /\ forall p, p <> (INBOX, file) -> p <> (PROC, file) -> acquired file b m !! p = m !! p.
Proof.
  unfold acquired. split.
  - rewrite fs_insert_ne by done. apply fs_delete_eq.
  - intros p H1 H2. rewrite fs_insert_ne by done. by apply fs_delete_ne.
Qed.

Lemma body_path_ledger w file w' :
  body_path products_csv pesticides_csv sheets sha256_hex ocr annotate csv_of datetime_now
    w file w' ->
  NoDup (map filehash (processed w)) -> NoDup (map filehash (processed w')).
Proof.
  intros Hpath Hnd. destruct Hpath; try done.
  - by destruct (fs w !! (PROC, file)).
  - cbn [processed]. rewrite map_app. apply NoDup_snoc; [done|]. by apply in_ledger_false.
Qed.

Lemma scan_ledger listing w :
  NoDup (map filehash (processed w)) ->
  exists w',
    scan products_csv pesticides_csv sheets sha256_hex ocr annotate csv_of datetime_now
      listing w = (Ok tt, w')
    /\ NoDup (map filehash (processed w')).
Proof.
  revert w. induction listing as [|file rest IH]; intros w Hnd; [by exists w|].
  cbn [scan]. unfold mbind, M_bind. destruct (is_pdf file).
  - destruct (run_paths w file) as (w1 & -> & Hpath).
    apply IH. by eapply body_path_ledger.
  - by apply IH.
Qed.

(** C1.  The ledger is the commit point.  The loop body changes the table
    [processed] only along the path on which OCR, extraction, reconciliation
    and annotation succeeded and the file was moved to the done folder: the
    insert is the last step, right after that move, and adds one row for the
    file's hash.  When a stage fails (the file cannot be acquired, OCR,
    reconciliation or annotation raises), and whenever the handler ran, the
    table is as it was.  A table whose keys are distinct keeps distinct
    keys, through the loop body and through a whole pass over a listing. *)
Theorem ledger_is_commit_point w file :
  let w' := (run file w).2 in
  (processed w' = processed w
   \/ exists b raw hd sup lots out t before,
        fs w !! (INBOX, file) = Some b
        /\ in_ledger (sha256_hex b) w = false
        /\ ocr b = Some raw
        /\ extract_header_fields products_csv raw = Ok hd
        /\ reconcile sheets raw = Ok (sup, lots)
        /\ annotate b sup lots = Some out
        /\ fs w' !! (DONE, file) = Some b
        /\ fs w' !! (PROC, file) = None
        /\ processed w'
           = processed w
             ++ [{| filehash := sha256_hex b; filename := file; processed_at := t |}]
        /\ new_steps w w'
           = before ++ [Moved (PROC, file) (DONE, file); LedgerInsert (sha256_hex b) file])
  /\ (fs w !! (INBOX, file) = None
      \/ (exists b,
            fs w !! (INBOX, file) = Some b
            /\ (ocr b = None
                \/ exists raw,
                     ocr b = Some raw
                     /\ ((exists e, reconcile sheets raw = Raise e)
                         \/ exists sup lots,
                              reconcile sheets raw = Ok (sup, lots)
                              /\ annotate b sup lots = None))) ->
      processed w' = processed w)
  /\ (forall e, In (ErrorPrinted file e) (new_steps w w') -> processed w' = processed w)
  /\ (NoDup (map filehash (processed w)) -> NoDup (map filehash (processed w')))
  /\ (forall listing,
        NoDup (map filehash (processed w)) ->
        exists w'',
          scan products_csv pesticides_csv sheets sha256_hex ocr annotate csv_of datetime_now
            listing w = (Ok tt, w'')
          /\ NoDup (map filehash (processed w''))).
Proof.
  intros w'. subst w'. destruct (run_paths w file) as (w' & -> & Hpath). cbn [snd].
  split; [|split; [|split; [|split]]].
  - destruct Hpath; try (by left).
    + left. by destruct (fs w !! (PROC, file)).
    + right.
      eexists b, raw, hd, sup, lots, out, _,
        (steps_lookup sha256_hex file b
         ++ steps_extract file (extract_results_to_rows pesticides_csv raw hd)
         ++ [Reconciled; Annotated (annotated_path file); Printed (annotated_path file)]).
      repeat (split; [done|]).
      destruct (filed_lookup DONE file b
                  (<[annotated_path file := out]>
                     (with_csv csv_of file (extract_results_to_rows pesticides_csv raw hd)
                        (acquired file b (fs w))))) as (Hdone & Hwork & _).
      cbn [fs processed]. split; [done|]. split; [by apply Hwork|]. split; [done|].
      erewrite new_steps_app by (cbn [trace]; reflexivity).
      by rewrite <- !app_assoc.
  - intros Hfail. destruct Hpath; try done.
    + by destruct (fs w !! (PROC, file)).
    + exfalso.
      destruct Hfail as [?|(b' & ? & [?|(raw' & ? & [[e ?]|(sup' & lots' & ? & ?)])])];
        congruence.
  - intros e He. destruct Hpath; try done.
    + by destruct (fs w !! (PROC, file)).
    + exfalso. revert He. unfold new_steps. cbn [trace]. rewrite drop_app_length.
      unfold steps_lookup, steps_extract. rewrite !in_app_iff. simpl.
      case_bool_decide; simpl; intuition discriminate.
  - by eapply body_path_ledger.
  - intros listing. apply scan_ledger.
Qed.

(** C2.  A file whose hash has a ledger entry is only moved: from the inbound
    folder to the working folder and from there to the done folder.  The
    steps that ran are the two moves, the hash and the ledger lookup: no OCR,
    no extraction, no reconciliation, no annotation, no CSV, no insert.  The
    ledger and every other file are as they were. *)
Theorem duplicate_short_circuit w file b :
  fs w !! (INBOX, file) = Some b ->
  in_ledger (sha256_hex b) w = true ->
  let w' := (run file w).2 in
  (run file w).1 = Ok tt
  /\ fs w' !! (DONE, file) = Some b
  /\ fs w' !! (PROC, file) = None
  /\ fs w' !! (INBOX, file) = None
  /\ (forall p, p <> (INBOX, file) -> p <> (PROC, file) -> p <> (DONE, file) ->
                fs w' !! p = fs w !! p)
  /\ processed w' = processed w
  /\ new_steps w w'
     = [Moved (INBOX, file) (PROC, file); Hashed (PROC, file);
        LedgerQueried (sha256_hex b); Moved (PROC, file) (DONE, file)].
Proof.
  intros Hin Hdup w'. subst w'. rewrite (run_duplicate w file b Hin Hdup). cbn [fst snd fs processed].
  destruct (filed_lookup DONE file b (acquired file b (fs w))) as (H1 & H2 & H3).
  destruct (acquired_lookup file b (fs w)) as (H4 & H5).
  split; [done|]. split; [done|]. split; [by apply H2|].
  split; [by rewrite H3|]. split; [intros p ? ? ?; rewrite H3 by done; by apply H5|].
  split; [done|]. by erewrite new_steps_app by (cbn [trace]; reflexivity).
Qed.

Lemma with_csv_lookup file rows m p :
  p.1 <> DONE -> csv_written file rows m !! p = m !! p.
Proof.
  intros Hp. unfold with_csv. case_bool_decide; [done|].
  apply fs_insert_ne. unfold csv_path. destruct p. simpl in Hp. congruence.
Qed.

Lemma failed_lookup w file b rows steps e :
  let w' := failed w file b (csv_written file rows (acquired file b (fs w))) steps e in
  fs w' !! (ERR, file) = Some b
  /\ fs w' !! (PROC, file) = None
  /\ fs w' !! (INBOX, file) = None
  /\ processed w' = processed w
  /\ last (trace w') = Some (ErrorPrinted file e).
Proof.
  intros w'. subst w'. unfold failed. cbn [fs processed trace].
  destruct (filed_lookup ERR file b (csv_written file rows (acquired file b (fs w))))
    as (Herr & Hwork & Hrest).
  split; [done|]. split; [by apply Hwork|]. split.
  - rewrite Hrest by done. rewrite with_csv_lookup by done. apply acquired_lookup.
  - split; [done|]. by rewrite !last_app.
Qed.

(** C5.  The candidates are the maximal digit runs of the raw text, the
    reference table lists the records of the workbook's rows in the order of
    the concatenated sheets.  When no record's external lot id is a
    candidate, reconciliation raises "lot not found" and the loop body moves
    the document to the error folder, the ledger unchanged.  Otherwise the
    supplier is that of the first matching record, and the internal lots
    text is the internal lot ids of all matching records, each id once,
    where it first occurs, one after the other with " / " between each
    two. *)
Theorem reconcile_by_lot w file b raw :
  re_findall re_digits raw = digit_runs raw
  /\ df sheets = flat_map (fun r => records_of r (lot_external_cell r)) (concat sheets)
  /\ ((forall r, In r (df sheets) -> ~ In (Lot_external r) (digit_runs raw)) ->
      reconcile sheets raw = Raise LotNotFound
      /\ (fs w !! (INBOX, file) = Some b ->
          in_ledger (sha256_hex b) w = false ->
          ocr b = Some raw ->
          let w' := (run file w).2 in
          fs w' !! (ERR, file) = Some b
          /\ fs w' !! (PROC, file) = None
          /\ fs w' !! (INBOX, file) = None
          /\ processed w' = processed w
          /\ last (trace w') = Some (ErrorPrinted file LotNotFound)))
  /\ (forall r0 rest,
        matching raw (df sheets) = r0 :: rest ->
        let ids := map (fun r => internal_lot (xl r)) (r0 :: rest) in
        reconcile sheets raw = Ok (supplier_name (xl r0), joined " / " (distinct ids))
        /\ NoDup (distinct ids)
        /\ forall x, In x (distinct ids) <-> In x ids).
Proof.
  split; [apply re_findall_digits|]. split; [apply df_records|]. split.
  - intros Hnone.
    assert (Hrec : reconcile sheets raw = Raise LotNotFound).
    { rewrite reconcile_spec.
      destruct (List.filter _ (df sheets)) as [|r0 rest] eqn:E; [done|].
      assert (Hr0 : In r0 (r0 :: rest)) by (by left). rewrite <- E in Hr0.
      apply filter_In in Hr0 as [Hin Hr0]. apply bool_decide_eq_true in Hr0.
      apply list_elem_of_In in Hr0. by destruct (Hnone r0 Hin). }
    split; [done|]. intros Hin Hdup Hocr w'. subst w'.
    erewrite run_reconcile_failed by (eauto using extract_header_fields_spec).
    cbn [snd]. apply failed_lookup.
  - intros r0 rest E ids. rewrite reconcile_spec.
    change (List.filter _ (df sheets)) with (matching raw (df sheets)). rewrite E.
    fold ids. rewrite str_join_joined, unique_distinct. split; [done|].
    rewrite <- unique_distinct. apply unique_spec.
Qed.

(** ** The results CSV *)

Lemma steps_csv file b rows tail :
  List.filter is_csv_written tail = [] ->
  List.filter is_csv_written (lookup_steps file b ++ steps_extract file rows ++ tail)
  = if bool_decide (rows = []) then [] else [CsvWritten (csv_path file) rows].
Proof.
  intros Htail. unfold steps_lookup, steps_extract.
  rewrite !List.filter_app, Htail. by case_bool_decide.
Qed.

(** C8 (as amended).  For a document of the inbound folder whose name ends
    in ".pdf" in lower case and holds no other ".pdf": the results CSV is
    named by replacing that extension with "_RESULTS.csv", in the done
    folder.  The loop body writes it exactly when rows were extracted, that
    is when the document is no duplicate, its OCR succeeds and the extractor
    returns at least one row; it is written before reconciliation.  The file
    is then there with the rows' CSV when the loop body ends, whether the
    document has reached the done folder or the error folder.  In every
    other case nothing is written, and what the done folder holds under
    that name is what it held before. *)
Theorem results_csv_written w stem b :
  str_in ".pdf" stem = false ->
  let file := stem ++ ".pdf" in
  fs w !! (INBOX, file) = Some b ->
  let w' := (run file w).2 in
  str_replace ".pdf" "_RESULTS.csv" file = stem ++ "_RESULTS.csv"
  /\ (fs w' !! (DONE, file) = Some b \/ fs w' !! (ERR, file) = Some b)
  /\ (in_ledger (sha256_hex b) w = true \/ ocr b = None ->
      List.filter is_csv_written (new_steps w w') = []
      /\ fs w' !! (DONE, stem ++ "_RESULTS.csv") = fs w !! (DONE, stem ++ "_RESULTS.csv"))
  /\ (forall raw hd,
        in_ledger (sha256_hex b) w = false ->
        ocr b = Some raw ->
        extract_header_fields products_csv raw = Ok hd ->
        let rows := extract_results_to_rows pesticides_csv raw hd in
        List.filter is_csv_written (new_steps w w')
        = (if bool_decide (rows = []) then []
           else [CsvWritten (DONE, stem ++ "_RESULTS.csv") rows])
        /\ (rows <> [] -> fs w' !! (DONE, stem ++ "_RESULTS.csv") = Some (csv_of rows))
        /\ (rows = [] -> fs w' !! (DONE, stem ++ "_RESULTS.csv")
                         = fs w !! (DONE, stem ++ "_RESULTS.csv"))).
Proof.
  intros Hstem file Hin w'. subst w'.
  assert (Hname : csv_path file = (DONE, stem ++ "_RESULTS.csv")).
  { unfold csv_path, file. by rewrite replace_pdf_suffix. }
  assert (Hann : annotated_path file = (DONE, stem ++ "_ANNOTATED.pdf")).
  { unfold annotated_path, file. by rewrite replace_pdf_suffix. }
  assert (Hne : (DONE, stem ++ "_RESULTS.csv") <> (DONE, file)
                /\ (DONE, stem ++ "_ANNOTATED.pdf") <> (DONE, stem ++ "_RESULTS.csv")).
  { unfold file. split; intros [= H%app_inv_head]; discriminate. }
  destruct Hne as [Hne1 Hne2].
  assert (Hacq : acquired file b (fs w) !! (DONE, stem ++ "_RESULTS.csv")
                 = fs w !! (DONE, stem ++ "_RESULTS.csv")) by (by apply acquired_lookup).
  assert (Hcsv : forall rows,
            csv_written file rows (acquired file b (fs w)) !! (DONE, stem ++ "_RESULTS.csv")
            = if bool_decide (rows = []) then fs w !! (DONE, stem ++ "_RESULTS.csv")
              else Some (csv_of rows)).
  { intros rows. unfold with_csv. rewrite Hname. case_bool_decide; [done|apply fs_insert_eq]. }
  assert (Hsplit : forall (rows : list row) (x : option text),
            x = (if bool_decide (rows = []) then fs w !! (DONE, stem ++ "_RESULTS.csv")
                 else Some (csv_of rows)) ->
            (rows <> [] -> x = Some (csv_of rows))
            /\ (rows = [] -> x = fs w !! (DONE, stem ++ "_RESULTS.csv"))).
  { intros rows x ->. by case_bool_decide. }
  split; [by injection Hname|].
  destruct (in_ledger (sha256_hex b) w) eqn:Hdup.
  { rewrite (run_duplicate w file b Hin Hdup). cbn [snd fs].
    destruct (filed_lookup DONE file b (acquired file b (fs w))) as (F1 & _ & F3).
    split; [by left|]. split; [|by intros raw hd [=]].
    intros _. split; [by erewrite new_steps_app by (cbn [trace]; reflexivity)|].
    by rewrite F3. }
  destruct (ocr b) as [raw|] eqn:Hocr.
  2: { rewrite (run_ocr_failed w file b Hin Hdup Hocr). unfold failed. cbn [snd fs].
       destruct (filed_lookup ERR file b (acquired file b (fs w))) as (F1 & _ & F3).
       split; [by right|]. split; [|by intros raw hd _ [=]].
       intros _. split; [by erewrite new_steps_app by (cbn [trace]; reflexivity)|].
       by rewrite F3. }
  destruct (extract_header_fields products_csv raw) as [hd|e0] eqn:Hhd;
    [|by rewrite extract_header_fields_spec in Hhd].
  destruct (reconcile sheets raw) as [[sup lots]|e] eqn:Hrec;
    [destruct (annotate b sup lots) as [out|] eqn:Hannot|].
  - erewrite run_succeeded by eauto. cbn [snd fs].
    split; [left; apply filed_lookup|]. split; [by intros [?|?]|].
    intros raw' hd' _ [= <-] Hhd'.
    assert (hd' = hd) as -> by congruence. split.
    { erewrite new_steps_app by (cbn [trace]; reflexivity).
      rewrite <- !app_assoc. rewrite steps_csv by done. by rewrite Hname. }
    apply Hsplit. rewrite (proj2 (proj2 (filed_lookup _ _ _ _))) by done.
    rewrite Hann, fs_insert_ne by done. apply Hcsv.
  - erewrite run_annotation_failed by eauto. unfold failed. cbn [snd fs].
    split; [right; apply filed_lookup|]. split; [by intros [?|?]|].
    intros raw' hd' _ [= <-] Hhd'.
    assert (hd' = hd) as -> by congruence. split.
    { erewrite new_steps_app by (cbn [trace]; reflexivity).
      rewrite <- !app_assoc. rewrite steps_csv by done. by rewrite Hname. }
    apply Hsplit. rewrite (proj2 (proj2 (filed_lookup _ _ _ _))) by done. apply Hcsv.
  - erewrite run_reconcile_failed by eauto. unfold failed. cbn [snd fs].
    split; [right; apply filed_lookup|]. split; [by intros [?|?]|].
    intros raw' hd' _ [= <-] Hhd'.
    assert (hd' = hd) as -> by congruence. split.
    { erewrite new_steps_app by (cbn [trace]; reflexivity).
      rewrite <- !app_assoc. rewrite steps_csv by done. by rewrite Hname. }
    apply Hsplit. rewrite (proj2 (proj2 (filed_lookup _ _ _ _))) by done. apply Hcsv.
Qed.

End Pipeline.

(** ** The reference table's records *)

(** The reference table lists, for each row of the concatenated sheets in
    order, one record per external lot id of the row's primary cell; the
    records of a row share the row, hence its internal lot id and supplier.
    The ids of a cell whose text holds no ".0" are the maximal digit runs of
    the text; for a text that ends in ".0" and holds no other ".0" (a whole
    number rendered as a float) they are the maximal digit runs of the text
    before that ending.  A cell "12345/67890" gives exactly two records, with
    the external lot ids "12345" and "67890". *)
Lemma reference_table_explodes sheets :
  df sheets = flat_map (fun r => records_of r (lot_external_cell r)) (concat sheets)
  /\ (forall r, str_in ".0" (cell0 r) = false -> lot_external_cell r = digit_runs (cell0 r))
  /\ (forall r stem,
        cell0 r = stem ++ ".0" -> str_in ".0" stem = false ->
        lot_external_cell r = digit_runs stem)
  /\ (forall il sup,
        df [[ {| cell0 := "12345/67890"; internal_lot := il; supplier_name := sup |} ]]
        = [ {| Lot_external := "12345";
               xl := {| cell0 := "12345/67890"; internal_lot := il; supplier_name := sup |} |};
            {| Lot_external := "67890";
               xl := {| cell0 := "12345/67890"; internal_lot := il; supplier_name := sup |} |} ]).
Proof.
  split; [apply df_records|]. split; [|split].
  - intros r Hr. unfold lot_external_cell. by rewrite re_findall_digits, replace_absent.
  - intros r stem Hcell Hstem. unfold lot_external_cell.
    by rewrite re_findall_digits, Hcell, replace_dot0_suffix.
  - intros il sup. rewrite df_records. cbn [concat flat_map app].
    unfold lot_external_cell. cbn [cell0].
    replace (re_findall re_digits (str_replace ".0" "" "12345/67890"))
      with [ "12345" : text; "67890" : text ] by (vm_compute; reflexivity).
    reflexivity.
Qed.

Example lot_cells_plain_and_float :
  lot_external_cell (ex_xl "12345/67890") = [ "12345" : text; "67890" : text ]
  /\ lot_external_cell (ex_xl "778.0") = [ "778" : text ].
Proof.
  destruct (reference_table_explodes ex_sheets) as (_ & Hplain & Hfloat & _). split.
  - etransitivity; [apply Hplain; vm_compute; reflexivity|]. vm_compute. reflexivity.
  - etransitivity; [apply (Hfloat (ex_xl "778.0") "778"); vm_compute; reflexivity|].
    vm_compute. reflexivity.
Defined.

(** The whole number 12345 of a numeric column is rendered "12345.0": the
    replacement takes the ending away, and the table gets the one record
    "12345". *)
Example float_rendering_undone :
  df [[ ex_xl "12345.0" ]] = [ {| Lot_external := "12345"; xl := ex_xl "12345.0" |} ].
Proof. vm_compute. reflexivity. Qed.

(** C9.  The replacement that undoes the float rendering deletes every
    ".0" of the cell's text, not only one that ends it.  A cell
    "12345.06789" holds the digit runs "12345" and "06789", and the table
    gets one record, with an id that the cell does not hold; a cell "20.05"
    gives the id "205" in the same way. *)
Theorem lot_ids_joined_across_dot_zero :
  digit_runs "12345.06789" = [ "12345" : text; "06789" : text ]
  /\ df [[ ex_xl "12345.06789" ]]
     = [ {| Lot_external := "123456789"; xl := ex_xl "12345.06789" |} ]
  /\ digit_runs "20.05" = [ "20" : text; "05" : text ]
  /\ df [[ ex_xl "20.05" ]] = [ {| Lot_external := "205"; xl := ex_xl "20.05" |} ].
Proof. vm_compute. auto. Qed.

(** ** The loop body on concrete worlds *)

(** The end-to-end scenario: one row, the supplier found, the document in
    the done folder, one ledger entry. *)
Example end_to_end :
  let w' := (ex_run "a.pdf" ex_world).2 in
  extract_results_to_rows ex_pesticides ex_certificate
    {| CertificateNumber := "Dokki-2024-001"; Sample := ""; LotNumber := "778" |}
  = [ {| row_header :=
           {| CertificateNumber := "Dokki-2024-001"; Sample := ""; LotNumber := "778" |};
         Analyte := "Chlorpyrifos"; Result := "0.023"; Unit := "mg/kg" |} ]
  /\ reconcile ex_sheets ex_certificate = Ok ("Acme Farms" : text, "INT-99" : text)
  /\ fs w' !! (DONE, "a.pdf" : text) = Some ("pdf-1" : text)
  /\ fs w' !! (INBOX, "a.pdf" : text) = None
  /\ processed w'
     = [ {| filehash := "h:pdf-1"; filename := "a.pdf"; processed_at := "t" |} ].
Proof. vm_compute. auto 6. Qed.

(** A name with an upper-case extension is discovered, and [replace] leaves
    it as it is: the CSV and the annotated copy would take the document's
    own name in the done folder. *)
Example upper_case_extension :
  is_pdf "C.PDF" = true
  /\ csv_path "C.PDF" = (DONE, "C.PDF" : text)
  /\ annotated_path "C.PDF" = (DONE, "C.PDF" : text).
Proof. vm_compute. auto. Qed.

Lemma ledger_is_commit_point_witness :
  NoDup (map filehash (processed (ex_run "a.pdf" ex_world).2))
  /\ NoDup (map filehash (processed (ex_run "a.pdf" ex_world_seen).2)).
Proof.
  split.
  - apply (ledger_is_commit_point ex_products ex_pesticides ex_sheets ex_sha ex_ocr
             ex_annotate ex_csv ex_now ex_world "a.pdf"). constructor.
  - apply (ledger_is_commit_point ex_products ex_pesticides ex_sheets ex_sha ex_ocr
             ex_annotate ex_csv ex_now ex_world_seen "a.pdf").
    vm_compute. repeat constructor. by intros ?%elem_of_nil.
Defined.

Lemma duplicate_short_circuit_witness :
  let w' := (ex_run "a.pdf" ex_world_seen).2 in
  fs w' !! (DONE, "a.pdf" : text) = Some ("pdf-1" : text)
  /\ processed w' = processed ex_world_seen
  /\ new_steps ex_world_seen w'
     = [ Moved (INBOX, "a.pdf" : text) (PROC, "a.pdf" : text); Hashed (PROC, "a.pdf" : text);
         LedgerQueried "h:pdf-1"; Moved (PROC, "a.pdf" : text) (DONE, "a.pdf" : text) ].
Proof.
  pose proof (duplicate_short_circuit ex_products ex_pesticides ex_sheets ex_sha ex_ocr
                ex_annotate ex_csv ex_now ex_world_seen "a.pdf" "pdf-1"
                ltac:(vm_compute; reflexivity) ltac:(vm_compute; reflexivity)) as H.
  cbv zeta in H. destruct H as (_ & Hdone & _ & _ & _ & Hledger & Hsteps).
  cbv zeta. unfold ex_run. auto.
Defined.

Lemma reconcile_by_lot_witness :
  reconcile ex_sheets ex_mixed = Raise LotNotFound
  /\ fs (ex_run "b.pdf" ex_world_unknown_lot).2 !! (ERR, "b.pdf" : text) = Some ("pdf-2" : text)
  /\ reconcile ex_sheets ex_certificate = Ok ("Acme Farms" : text, "INT-99" : text)
  /\ map (fun r => (Lot_external r, internal_lot (xl r))) (matching ex_three_lots (df ex_sheets))
     = [ ("778" : text, "INT-99" : text); ("12345" : text, "INT-7" : text);
         ("67890" : text, "INT-7" : text) ]
  /\ reconcile ex_sheets ex_three_lots = Ok ("Acme Farms" : text, "INT-99 / INT-7" : text).
Proof.
  destruct (reconcile_by_lot ex_products ex_pesticides ex_sheets ex_sha ex_ocr ex_annotate
              ex_csv ex_now ex_world_unknown_lot "b.pdf" "pdf-2" ex_mixed)
    as (_ & _ & Hnone & _).
  destruct Hnone as [Hraise Hrouted].
  { intros r Hr. vm_compute in Hr. vm_compute.
    intuition (subst; simplify_eq). }
  destruct (Hrouted ltac:(vm_compute; reflexivity) ltac:(vm_compute; reflexivity)
              ltac:(vm_compute; reflexivity)) as (Herr & _).
  destruct (reconcile_by_lot ex_products ex_pesticides ex_sheets ex_sha ex_ocr ex_annotate
              ex_csv ex_now ex_world "a.pdf" "pdf-1" ex_certificate)
    as (_ & _ & _ & Hsome).
  destruct (Hsome {| Lot_external := "778";
                     xl := {| cell0 := "778"; internal_lot := "INT-99";
                              supplier_name := "Acme Farms" |} |} []
              ltac:(vm_compute; reflexivity)) as (Hok & _).
  destruct (reconcile_by_lot ex_products ex_pesticides ex_sheets ex_sha ex_ocr ex_annotate
              ex_csv ex_now ex_world "a.pdf" "pdf-1" ex_three_lots)
    as (_ & _ & _ & Hthree).
  destruct (Hthree {| Lot_external := "778";
                      xl := {| cell0 := "778"; internal_lot := "INT-99";
                               supplier_name := "Acme Farms" |} |}
              [ {| Lot_external := "12345";
                   xl := {| cell0 := "12345/67890"; internal_lot := "INT-7";
                            supplier_name := "Nile Co" |} |};
                {| Lot_external := "67890";
                   xl := {| cell0 := "12345/67890"; internal_lot := "INT-7";
                            supplier_name := "Nile Co" |} |} ]
              ltac:(vm_compute; reflexivity)) as (Hjoined & _).
  split; [exact Hraise|]. split; [exact Herr|]. split; [exact Hok|].
  split; [vm_compute; reflexivity|].
  etransitivity; [exact Hjoined|]. vm_compute. reflexivity.
Defined.

(** Of two lines that give a lot number, the first one counts. *)
Example first_lot_line_wins :
  exists hd,
    extract_header_fields ex_products
      (unlines [ "Certificate Number: DOKKI-2024-001" : text; "Lot Number: 12345" : text;
                 "Lot Number: 778" : text ]) = Ok hd
    /\ LotNumber hd = "12345".
Proof.
  destruct (header_first_match_wins ex_products
              (unlines [ "Certificate Number: DOKKI-2024-001" : text;
                         "Lot Number: 12345" : text; "Lot Number: 778" : text ]))
    as (hd & Hhd & _ & _ & Hlot).
  exists hd. split; [exact Hhd|].
  apply (Hlot [ "Certificate Number: DOKKI-2024-001" : text ] [ "Lot Number: 778" : text ]).
  - vm_compute; reflexivity.
  - repeat constructor.
Defined.

Lemma results_csv_written_witness :
  let w' := (ex_run "a.pdf" ex_world).2 in
  List.filter is_csv_written (new_steps ex_world w')
  = [ CsvWritten (DONE, "a_RESULTS.csv" : text)
        [ {| row_header :=
               {| CertificateNumber := "Dokki-2024-001"; Sample := ""; LotNumber := "778" |};
             Analyte := "Chlorpyrifos"; Result := "0.023"; Unit := "mg/kg" |} ] ]
  /\ fs w' !! (DONE, "a_RESULTS.csv" : text) = Some ("Chlorpyrifos,0.023,mg/kg;" : text)
  /\ fs (ex_run "a.pdf" ex_world_seen).2 !! (DONE, "a_RESULTS.csv" : text) = None.
Proof.
  pose proof (results_csv_written ex_products ex_pesticides ex_sheets ex_sha ex_ocr
                ex_annotate ex_csv ex_now ex_world "a" "pdf-1"
                ltac:(vm_compute; reflexivity) ltac:(vm_compute; reflexivity)) as H.
  cbv zeta in H. destruct H as (_ & _ & _ & Hrows).
  destruct (Hrows ex_certificate
              {| CertificateNumber := "Dokki-2024-001"; Sample := ""; LotNumber := "778" |}
              ltac:(vm_compute; reflexivity) ltac:(vm_compute; reflexivity)
              ltac:(vm_compute; reflexivity)) as (Hsteps & Hfile & _).
  pose proof (results_csv_written ex_products ex_pesticides ex_sheets ex_sha ex_ocr
                ex_annotate ex_csv ex_now ex_world_seen "a" "pdf-1"
                ltac:(vm_compute; reflexivity) ltac:(vm_compute; reflexivity)) as H.
  cbv zeta in H. destruct H as (_ & _ & Hnone & _).
  destruct Hnone as [_ Hsame]; [left; vm_compute; reflexivity|].
  cbv zeta. split; [|split].
  - etransitivity; [exact Hsteps|]. vm_compute. reflexivity.
  - etransitivity; [apply Hfile; vm_compute; discriminate|]. vm_compute. reflexivity.
  - etransitivity; [exact Hsame|]. vm_compute. reflexivity.
Defined.

(** C8, as stated, fails: rows were extracted and the CSV is in the done
    folder, and the document, whose lot is unknown, is in the error folder
    and not in the done folder. *)
Lemma results_csv_written_counterexample :
  let w' := (ex_run "b.pdf" ex_world_unknown_lot).2 in
  fs w' !! (DONE, "b_RESULTS.csv" : text)
  = Some ("Chlorpyrifos,0.5,mg/kg;Pesticide Residues,Not detected,;" : text)
  /\ fs w' !! (ERR, "b.pdf" : text) = Some ("pdf-2" : text)
  /\ fs w' !! (DONE, "b.pdf" : text) = None
  /\ processed w' = [].
Proof. vm_compute. auto. Qed.

(** ** The collaborators, step by step *)

Section Ocr.

Variable page : Type.
Variable fitz_open : text -> option (list page).
Variable page_to_string : page -> option text.

Lemma ocr_pages_spec pages acc :
  ocr_pages page page_to_string pages acc
  = match mapM page_to_string pages with
    | Some ts => Ok (acc ++ concat ts)
    | None => Raise OcrError
    end.
Proof.
  revert acc. induction pages as [|p pages IH]; intros acc; simpl.
  - by rewrite app_nil_r.
  - destruct (page_to_string p) as [t|]; simpl; [|done].
    rewrite IH. destruct (mapM page_to_string pages) as [ts|]; simpl; [|done].
    by rewrite <- app_assoc.
Qed.

(** X1.  [ocr_text] gives the texts of the pages, in page order, put end to end
    with nothing between them, when every page is read; it raises when the
    document does not open or a page is not read.  A document that was
    opened is closed on both ways out: as many documents are open after the
    call as before. *)
Theorem ocr_text_pages_spec b opened :
  (ocr_text_pages page fitz_open page_to_string b opened).1
  = match fitz_open b with
    | Some pages =>
        match mapM page_to_string pages with
        | Some ts => Ok (concat ts)
        | None => Raise OcrError
        end
    | None => Raise OcrError
    end
  /\ (ocr_text_pages page fitz_open page_to_string b opened).2 = opened.
Proof.
  unfold ocr_text_pages, try_finally, doc_close.
  destruct (fitz_open b) as [pages|]; [|done]. simpl.
  rewrite ocr_pages_spec. split; [done|lia].
Qed.

End Ocr.

Section Annotation.

Variable page : Type.
Variable read_pdf : text -> option (list page).
Variable overlay_of : text -> option (list page).
Variable merge_page : page -> page -> page.
Variable write_pdf : list page -> text.
Variable reshape_display : text -> text.

Lemma add_pages_seq (pages : list page) n k writer :
  k + n = length pages ->
  add_pages page pages (seq k n) writer = Ok (writer ++ drop k pages).
Proof.
  revert k writer. induction n as [|n IH]; intros k writer Hk; simpl.
  - rewrite drop_ge by lia. by rewrite app_nil_r.
  - destruct (lookup_lt_is_Some_2 pages k) as [p Hp]; [lia|].
    rewrite Hp, IH by lia. rewrite <- app_assoc. simpl.
    by rewrite (drop_S _ _ _ Hp).
Qed.

(** X2.  The annotated document has the pages of the original, as many and in
    the same order: the first with the first page of the overlay merged onto
    it, the others as they were.  The overlay is drawn for the internal
    lots, two spaces and the reshaped supplier name.  A document without
    pages raises [IndexError], before the overlay's first page is looked at;
    no index of the loop over the other pages is out of range.  The bytes
    handed to the loop body are those of these pages, and there are none
    when the file does not parse or a step raises. *)
Theorem annotated_pages_spec pages b supplier internal_lots_text :
  annotated_pages page overlay_of merge_page reshape_display pages supplier internal_lots_text
  = match overlay_of (internal_lots_text ++ "  " ++ reshape_display supplier) with
    | Some overlay =>
        match pages, overlay with
        | p0 :: rest, o0 :: _ => Ok (merge_page p0 o0 :: rest)
        | _, _ => Raise IndexError
        end
    | None => Raise AnnotationError
    end
  /\ annotate_of_pages page read_pdf overlay_of merge_page write_pdf reshape_display
       b supplier internal_lots_text
     = match read_pdf b, overlay_of (internal_lots_text ++ "  " ++ reshape_display supplier) with
       | Some (p0 :: rest), Some (o0 :: _) => Some (write_pdf (merge_page p0 o0 :: rest))
       | _, _ => None
       end.
Proof.
  assert (Hpages : forall ps,
    annotated_pages page overlay_of merge_page reshape_display ps supplier internal_lots_text
    = match overlay_of (internal_lots_text ++ "  " ++ reshape_display supplier) with
      | Some overlay =>
          match ps, overlay with
          | p0 :: rest, o0 :: _ => Ok (merge_page p0 o0 :: rest)
          | _, _ => Raise IndexError
          end
      | None => Raise AnnotationError
      end).
  { intros ps. unfold annotated_pages, label_text.
    destruct (overlay_of _) as [overlay|]; [|done].
    destruct ps as [|p0 rest]; [done|]. destruct overlay as [|o0 overlay]; [done|].
    cbn [lookup list_lookup]. rewrite add_pages_seq by (simpl; lia). done. }
  split; [apply Hpages|].
  unfold annotate_of_pages. destruct (read_pdf b) as [ps|]; [|done].
  rewrite Hpages. destruct (overlay_of _) as [[|o0 overlay]|]; by destruct ps.
Qed.

End Annotation.

Section Printing.

Variable get_ok : bool.
Variable set_ok : text -> bool.
Variable shell_ok : path -> bool.

(** X3.  [print_pdf] never raises.  It returns [True] exactly when reading the
    default printer, setting the target printer and the shell's print all go
    through, and it is then that one job is sent, to the target printer.
    When the default printer could not be read nothing is changed.  When it
    was read and can be set again, it is the default printer afterwards,
    whatever failed in between; otherwise the target printer may stay the
    default. *)
Theorem print_pdf_spooler_spec pdf_path printer s :
  let r := print_pdf_spooler get_ok set_ok shell_ok pdf_path printer s in
  (r.1 = true <-> get_ok = true /\ set_ok printer = true /\ shell_ok pdf_path = true)
  /\ jobs r.2 = (if r.1 then jobs s ++ [(pdf_path, printer)] else jobs s)
  /\ (get_ok = false -> r.2 = s)
  /\ (get_ok = true -> set_ok (default_printer s) = true ->
      default_printer r.2 = default_printer s)
  /\ (default_printer r.2 = default_printer s \/ default_printer r.2 = printer).
Proof.
  unfold print_pdf_spooler, print_try, print_finally, GetDefaultPrinter,
    SetDefaultPrinter, ShellExecute_print.
  destruct get_ok, (set_ok printer) eqn:Hp, (shell_ok pdf_path) eqn:Hs,
    (set_ok (default_printer s)) eqn:Hd;
    cbn [fst snd default_printer jobs]; rewrite ?Hd; cbn [fst snd default_printer jobs];
    intuition (auto; congruence).
Qed.

End Printing.

(** ** The ledger and the folders, further *)

Section Ledger.

Variable datetime_now : list step -> text.

Lemma in_ledger_app h w rows :
  existsb (fun r => text_eqb (filehash r) h) (processed w ++ rows)
  = in_ledger h w || existsb (fun r => text_eqb (filehash r) h) rows.
Proof. unfold in_ledger. apply existsb_app. Qed.

(** X4.  After [mark_done h name] the lookup of [h] answers yes, and the lookups
    of the other hashes answer as before.  The insert is dropped when [h]
    has a row: the row that is there stays, with its name and its time, so
    that a second [mark_done] of the same hash changes nothing.  The folders
    are not touched. *)
Theorem mark_done_already_done h name w :
  let w' := (mark_done datetime_now h name w).2 in
  (already_done h w').1 = Ok true
  /\ (forall h', h' <> h -> (already_done h' w').1 = (already_done h' w).1)
  /\ (in_ledger h w = true -> processed w' = processed w)
  /\ (forall name', processed (mark_done datetime_now h name' w').2 = processed w')
  /\ fs w' = fs w.
Proof.
  intros w'. subst w'. unfold mark_done, already_done. cbn [fst snd fs processed].
  assert (Hin : in_ledger h
                  {| fs := fs w;
                     processed :=
                       if in_ledger h w then processed w
                       else processed w ++
                              [{| filehash := h; filename := name;
                                  processed_at := datetime_now (trace w) |}];
                     trace := trace w ++ [LedgerInsert h name] |} = true).
  { unfold in_ledger at 1. cbn [processed].
    destruct (in_ledger h w) eqn:E; [done|].
    rewrite existsb_app. simpl. unfold text_eqb. rewrite bool_decide_eq_true_2 by done.
    by rewrite orb_true_r. }
  split; [by rewrite Hin|]. split; [|split; [|split; [|done]]].
  - intros h' Hne. f_equal. unfold in_ledger at 1. cbn [processed].
    destruct (in_ledger h w); [done|].
    rewrite existsb_app. simpl. unfold text_eqb.
    rewrite (bool_decide_eq_false_2 (h = h')) by congruence.
    by rewrite !orb_false_r.
  - by intros ->.
  - intros name'. by rewrite Hin.
Qed.

End Ledger.

Section Folders.

Variable products_csv : list text.
Variable pesticides_csv : list text.
Variable sheets : list (list xl_row).
Variable sha256_hex : text -> text.
Variable ocr : text -> option text.
Variable annotate : text -> text -> text -> option text.
Variable csv_of : list row -> text.
Variable datetime_now : list step -> text.

Local Abbreviation run :=
  (process_file products_csv pesticides_csv sheets sha256_hex ocr annotate csv_of datetime_now).
Local Abbreviation pass :=
  (scan products_csv pesticides_csv sheets sha256_hex ocr annotate csv_of datetime_now).
Local Abbreviation path_of :=
  (body_path products_csv pesticides_csv sheets sha256_hex ocr annotate csv_of datetime_now).

(** The paths the loop body for [file] may write or remove. *)
Lemma body_path_frame w file w' p :
  path_of w file w' ->
  p <> (INBOX, file) -> p <> (PROC, file) -> p <> (DONE, file) -> p <> (ERR, file) ->
  p <> csv_path file -> p <> annotated_path file ->
  fs w' !! p = fs w !! p.
Proof.
  intros Hpath H1 H2 H3 H4 H5 H6.
  destruct Hpath; unfold failed, filed, acquired, with_csv; cbn [fs];
    try destruct (fs w !! (PROC, file)); cbn [fs];
    try case_bool_decide; by autorewrite with folders.
Qed.

Lemma body_path_appends w file w' :
  path_of w file w' ->
  processed w' = processed w
  \/ exists t, processed w' = processed w ++ [{| filehash := filehash t; filename := file;
                                                processed_at := processed_at t |}].
Proof.
  intros Hpath. destruct Hpath; try (by left).
  - left. by destruct (fs w !! (PROC, file)).
  - right. by eexists {| filehash := _; filename := file; processed_at := _ |}.
Qed.

Lemma body_path_outcome w file w' b :
  path_of w file w' ->
  fs w !! (INBOX, file) = Some b ->
  fs w' !! (INBOX, file) = None
  /\ fs w' !! (PROC, file) = None
  /\ ((fs w' !! (DONE, file) = Some b
       /\ forall e, ~ In (ErrorPrinted file e) (new_steps w w'))
      \/ (fs w' !! (ERR, file) = Some b
          /\ processed w' = processed w
          /\ exists e, last (trace w') = Some (ErrorPrinted file e))).
Proof.
  intros Hpath Hin. destruct Hpath as [Hno|b' Hb|b' Hb ? ?|b' raw hd e Hb|b' raw hd sup lots Hb|b' raw hd sup lots out Hb].
  - congruence.
  - assert (b' = b) as -> by congruence.
    destruct (filed_lookup DONE file b (acquired file b (fs w))) as (F1 & F2 & F3).
    destruct (acquired_lookup file b (fs w)) as (F4 & F5).
    cbn [fs]. split; [by rewrite F3|]. split; [by apply F2|]. left. split; [done|].
    intros e. erewrite new_steps_app by (cbn [trace]; reflexivity).
    unfold steps_lookup. rewrite !in_app_iff. simpl. intuition discriminate.
  - assert (b' = b) as -> by congruence.
    destruct (failed_lookup csv_of w file b []
                (steps_lookup sha256_hex file b ++ [OcrRun (PROC, file)]) OcrError)
      as (F1 & F2 & F3 & F4 & F5).
    split; [done|]. split; [done|]. right. split; [done|]. split; [done|]. by eexists.
  - assert (b' = b) as -> by congruence.
    match goal with |- context [failed w file b ?m ?s ?e] =>
      destruct (failed_lookup csv_of w file b (extract_results_to_rows pesticides_csv raw hd) s e)
        as (F1 & F2 & F3 & F4 & F5) end.
    split; [done|]. split; [done|]. right. split; [done|]. split; [done|]. by eexists.
  - assert (b' = b) as -> by congruence.
    match goal with |- context [failed w file b ?m ?s ?e] =>
      destruct (failed_lookup csv_of w file b (extract_results_to_rows pesticides_csv raw hd) s e)
        as (F1 & F2 & F3 & F4 & F5) end.
    split; [done|]. split; [done|]. right. split; [done|]. split; [done|]. by eexists.
  - assert (b' = b) as -> by congruence.
    match goal with |- context [filed DONE file b ?m] =>
      destruct (filed_lookup DONE file b m) as (F1 & F2 & F3) end.
    cbn [fs]. split; [|split; [by apply F2|]].
    + rewrite F3 by done. unfold annotated_path. rewrite fs_insert_ne by done.
      rewrite with_csv_lookup by done. apply acquired_lookup.
    + left. split; [done|].
      intros e. erewrite new_steps_app by (cbn [trace]; reflexivity).
      unfold steps_lookup, steps_extract. rewrite !in_app_iff. simpl.
      case_bool_decide; simpl; intuition discriminate.
Qed.

(** X5.  A document the loop body finds in the inbound folder is in neither the
    inbound nor the working folder afterwards: it is in the done folder or in
    the error folder, under its own name and with its bytes unchanged.  It is
    in the error folder exactly on the paths that end with the error printed,
    and the ledger is then as it was. *)
Theorem document_is_filed w file b :
  fs w !! (INBOX, file) = Some b ->
  let w' := (run file w).2 in
  (run file w).1 = Ok tt
  /\ fs w' !! (INBOX, file) = None
  /\ fs w' !! (PROC, file) = None
  /\ ((fs w' !! (DONE, file) = Some b
       /\ forall e, ~ In (ErrorPrinted file e) (new_steps w w'))
      \/ (fs w' !! (ERR, file) = Some b
          /\ processed w' = processed w
          /\ exists e, last (trace w') = Some (ErrorPrinted file e))).
Proof.
  intros Hin w'. subst w'.
  destruct (run_paths products_csv pesticides_csv sheets sha256_hex ocr annotate csv_of
              datetime_now w file) as (w' & -> & Hpath).
  cbn [fst snd]. split; [done|]. by eapply body_path_outcome.
Qed.

(** X6.  The loop body for [file] leaves every other file as it was: the paths it
    may write or remove are the document's in the four folders, and the
    results CSV and the annotated copy in the done folder. *)
Theorem other_files_untouched w file p :
  p <> (INBOX, file) -> p <> (PROC, file) -> p <> (DONE, file) -> p <> (ERR, file) ->
  p <> (DONE, str_replace ".pdf" "_RESULTS.csv" file) ->
  p <> (DONE, str_replace ".pdf" "_ANNOTATED.pdf" file) ->
  fs (run file w).2 !! p = fs w !! p.
Proof.
  intros H1 H2 H3 H4 H5 H6.
  destruct (run_paths products_csv pesticides_csv sheets sha256_hex ocr annotate csv_of
              datetime_now w file) as (w' & -> & Hpath).
  cbn [snd]. by eapply body_path_frame.
Qed.

(** X7.  A pass over a listing of the inbound folder completes: no exception
    leaves the loop body.  It is the pass over the names of the listing that
    end in ".pdf" in any case: the other names are skipped, and a file of
    the inbound folder with such a name is left there.  The ledger only
    grows, at its end, and by rows for names of the listing. *)
Theorem pass_completes listing w :
  exists w',
    pass listing w = (Ok tt, w')
    /\ pass (List.filter is_pdf listing) w = (Ok tt, w')
    /\ (exists added,
          processed w' = processed w ++ added
          /\ Forall (fun r => In (filename r) listing /\ is_pdf (filename r) = true) added)
    /\ (forall name, is_pdf name = false -> fs w' !! (INBOX, name) = fs w !! (INBOX, name)).
Proof.
  revert w. induction listing as [|file rest IH]; intros w.
  { exists w. repeat split; try done. exists []. by rewrite app_nil_r. }
  cbn [scan List.filter]. destruct (is_pdf file) eqn:Hpdf.
  - cbn [scan]. rewrite Hpdf. unfold mbind, M_bind.
    destruct (run_paths products_csv pesticides_csv sheets sha256_hex ocr annotate csv_of
                datetime_now w file) as (w1 & -> & Hpath).
    destruct (IH w1) as (w' & -> & -> & (added & Hadd & Hall) & Hfs).
    exists w'. split; [done|]. split; [done|]. split.
    + destruct (body_path_appends _ _ _ Hpath) as [Heq|[t Heq]].
      * exists added. rewrite Hadd, Heq. split; [done|].
        eapply Forall_impl; [exact Hall|]. simpl. intuition.
      * eexists (_ :: added). rewrite Hadd, Heq, <- app_assoc. split; [done|].
        constructor; [simpl; auto|].
        eapply Forall_impl; [exact Hall|]. simpl. intuition.
    + intros name Hname. rewrite Hfs by done.
      assert (name <> file) by congruence.
      eapply body_path_frame; [exact Hpath|..]; unfold csv_path, annotated_path; congruence.
  - unfold mbind, M_bind. unfold mret at 1, M_ret at 1.
    destruct (IH w) as (w' & -> & -> & (added & Hadd & Hall) & Hfs).
    exists w'. repeat split; try done. exists added. split; [done|].
    eapply Forall_impl; [exact Hall|]. simpl. intuition.
Qed.

(** X8.  Exactly once.  Once a document has gone through the whole loop body,
    its hash is in the ledger.  In any later state of the folders, the ledger
    having only been added to, a file with the same bytes that is found in the
    inbound folder, under the same name or another, is only moved to the done
    folder: it is hashed and looked up and nothing else runs, and the ledger
    is left as it is. *)
Theorem same_bytes_processed_once w file1 file2 b raw hd sup lots out w2 :
  fs w !! (INBOX, file1) = Some b ->
  in_ledger (sha256_hex b) w = false ->
  ocr b = Some raw ->
  extract_header_fields products_csv raw = Ok hd ->
  reconcile sheets raw = Ok (sup, lots) ->
  annotate b sup lots = Some out ->
  let w1 := (run file1 w).2 in
  (exists later, processed w2 = processed w1 ++ later) ->
  fs w2 !! (INBOX, file2) = Some b ->
  let w3 := (run file2 w2).2 in
  (exists t, processed w1 = processed w ++ [{| filehash := sha256_hex b; filename := file1;
                                             processed_at := t |}])
  /\ in_ledger (sha256_hex b) w2 = true
  /\ processed w3 = processed w2
  /\ fs w3 !! (DONE, file2) = Some b
  /\ fs w3 !! (INBOX, file2) = None
  /\ new_steps w2 w3
     = [Moved (INBOX, file2) (PROC, file2); Hashed (PROC, file2);
        LedgerQueried (sha256_hex b); Moved (PROC, file2) (DONE, file2)].
Proof.
  intros Hin Hnew Hocr Hhd Hrec Hann w1. subst w1.
  rewrite (run_succeeded products_csv pesticides_csv sheets sha256_hex ocr annotate csv_of
             datetime_now w file1 b raw hd sup lots out Hin Hnew Hocr Hhd Hrec Hann).
  cbn [snd processed]. intros [later Hlater] Hin2.
  assert (Hdup : in_ledger (sha256_hex b) w2 = true).
  { unfold in_ledger. rewrite Hlater, !existsb_app. simpl.
    unfold text_eqb. rewrite bool_decide_eq_true_2 by done.
    by rewrite orb_true_r. }
  rewrite (run_duplicate products_csv pesticides_csv sheets sha256_hex ocr annotate csv_of
             datetime_now w2 file2 b Hin2 Hdup).
  cbn [snd fs processed]. split; [by eexists|]. split; [done|]. split; [done|].
  destruct (filed_lookup DONE file2 b (acquired file2 b (fs w2))) as (F1 & _ & F3).
  split; [done|]. split.
  - rewrite F3 by done. apply acquired_lookup.
  - by erewrite new_steps_app by (cbn [trace]; reflexivity).
Qed.

Lemma pdf_suffix_ne (stem a b : text) : a <> b -> (DONE, stem ++ a) <> (DONE, stem ++ b).
Proof. intros Hab [= H%app_inv_head]. done. Qed.

(** X9.  After the whole loop body has run for a document named [stem ++ ".pdf"]
    with no other ".pdf" in the name, the done folder holds the document
    with its bytes unchanged, the annotated copy as [stem ++ "_ANNOTATED.pdf"]
    and, when there are rows, the results as [stem ++ "_RESULTS.csv"]; the
    annotated copy is what was sent to the printer. *)
Theorem done_folder_after_success w stem b raw hd sup lots out :
  str_in ".pdf" stem = false ->
  let file := stem ++ ".pdf" in
  fs w !! (INBOX, file) = Some b ->
  in_ledger (sha256_hex b) w = false ->
  ocr b = Some raw ->
  extract_header_fields products_csv raw = Ok hd ->
  reconcile sheets raw = Ok (sup, lots) ->
  annotate b sup lots = Some out ->
  let rows := extract_results_to_rows pesticides_csv raw hd in
  let w' := (run file w).2 in
  fs w' !! (DONE, stem ++ ".pdf") = Some b
  /\ fs w' !! (DONE, stem ++ "_ANNOTATED.pdf") = Some out
  /\ (rows <> [] -> fs w' !! (DONE, stem ++ "_RESULTS.csv") = Some (csv_of rows))
  /\ In (Printed (DONE, stem ++ "_ANNOTATED.pdf")) (new_steps w w').
Proof.
  intros Hstem file Hin Hnew Hocr Hhd Hrec Hann rows w'. subst w' rows.
  rewrite (run_succeeded products_csv pesticides_csv sheets sha256_hex ocr annotate csv_of
             datetime_now w file b raw hd sup lots out Hin Hnew Hocr Hhd Hrec Hann).
  cbn [snd fs]. unfold annotated_path, with_csv, csv_path, file.
  rewrite !replace_pdf_suffix by done.
  match goal with |- context [filed DONE ?f b ?m] =>
    destruct (filed_lookup DONE f b m) as (H1 & _ & H3) end.
  split; [done|]. split; [|split].
  - rewrite H3 by (try done; by apply pdf_suffix_ne). apply fs_insert_eq.
  - intros Hrows. rewrite H3 by (try done; by apply pdf_suffix_ne).
    rewrite fs_insert_ne by (by apply pdf_suffix_ne).
    rewrite bool_decide_eq_false_2 by done. apply fs_insert_eq.
  - erewrite new_steps_app by (cbn [trace]; reflexivity).
    rewrite !in_app_iff. left. right. right. cbn [In]. right. right. by left.
Qed.

(** X10.  When the name holds no ".pdf" in lower case, as "C.PDF" does, the
    annotated copy and the results CSV are written under the document's own
    name in the done folder, and the move of the document then replaces
    them: of the run, the folders keep the document only. *)
Theorem outputs_overwritten_without_lower_pdf w file b raw hd sup lots out :
  str_in ".pdf" file = false ->
  fs w !! (INBOX, file) = Some b ->
  in_ledger (sha256_hex b) w = false ->
  ocr b = Some raw ->
  extract_header_fields products_csv raw = Ok hd ->
  reconcile sheets raw = Ok (sup, lots) ->
  annotate b sup lots = Some out ->
  let w' := (run file w).2 in
  In (Annotated (DONE, file)) (new_steps w w')
  /\ fs w' !! (DONE, file) = Some b
  /\ forall p, p <> (INBOX, file) -> p <> (PROC, file) -> p <> (DONE, file) ->
               fs w' !! p = fs w !! p.
Proof.
  intros Hname Hin Hnew Hocr Hhd Hrec Hann w'. subst w'.
  rewrite (run_succeeded products_csv pesticides_csv sheets sha256_hex ocr annotate csv_of
             datetime_now w file b raw hd sup lots out Hin Hnew Hocr Hhd Hrec Hann).
  cbn [snd fs]. unfold annotated_path, with_csv, csv_path, filed, acquired.
  rewrite !replace_absent by done. split; [|split].
  - erewrite new_steps_app by (cbn [trace]; reflexivity).
    rewrite !in_app_iff. left. right. right. cbn [In]. right. by left.
  - apply fs_insert_eq.
  - intros p H1 H2 H3. case_bool_decide; by autorewrite with folders.
Qed.

(** X11.  A name that is listed and is not, or no longer, in the inbound folder:
    the move raises, the handler prints the error, and the ledger is as it
    was.  The folders are as they were too, unless a file of that name sits
    in the working folder: the handler moves it to the error folder. *)
Theorem missing_file_is_reported w file :
  fs w !! (INBOX, file) = None ->
  let w' := (run file w).2 in
  (run file w).1 = Ok tt
  /\ processed w' = processed w
  /\ last (new_steps w w') = Some (ErrorPrinted file (FileNotFoundError file))
  /\ fs w' !! (PROC, file) = None
  /\ (fs w !! (PROC, file) = None -> fs w' = fs w)
  /\ (forall b', fs w !! (PROC, file) = Some b' ->
                 fs w' !! (ERR, file) = Some b'
                 /\ forall p, p <> (PROC, file) -> p <> (ERR, file) -> fs w' !! p = fs w !! p).
Proof.
  intros Hin w'. subst w'.
  rewrite (run_not_acquired products_csv pesticides_csv sheets sha256_hex ocr annotate csv_of
             datetime_now w file Hin).
  cbn [fst snd]. destruct (fs w !! (PROC, file)) as [b'|] eqn:E; cbn [fs processed trace].
  - destruct (filed_lookup ERR file b' (fs w)) as (F1 & F2 & F3).
    split; [done|]. split; [done|].
    split; [by erewrite new_steps_app by (cbn [trace]; reflexivity)|].
    split; [by apply F2|]. split; [done|].
    intros ? [= <-]. split; [done|]. intros p ? ?. by apply F3.
  - split; [done|]. split; [done|].
    split; [by erewrite new_steps_app by (cbn [trace]; reflexivity)|]. by repeat split.
Qed.

(** X12.  Running the loop body again for a name it has already handled does
    nothing but print that the file is not found: the folders and the ledger
    stay as the first run left them. *)
Theorem second_run_changes_nothing w file b :
  fs w !! (INBOX, file) = Some b ->
  let w1 := (run file w).2 in
  let w2 := (run file w1).2 in
  fs w2 = fs w1
  /\ processed w2 = processed w1
  /\ new_steps w1 w2 = [ErrorPrinted file (FileNotFoundError file)].
Proof.
  intros Hin w1 w2. subst w2 w1.
  destruct (run_paths products_csv pesticides_csv sheets sha256_hex ocr annotate csv_of
              datetime_now w file) as (w1 & -> & Hpath).
  cbn [snd]. destruct (body_path_outcome _ _ _ _ Hpath Hin) as (Hno & Hwork & _).
  rewrite (run_not_acquired products_csv pesticides_csv sheets sha256_hex ocr annotate csv_of
             datetime_now w1 file Hno).
  cbn [snd]. rewrite Hwork. cbn [fs processed]. split; [done|]. split; [done|].
  by erewrite new_steps_app by (cbn [trace]; reflexivity).
Qed.

End Folders.

Lemma document_is_filed_witness :
  fs (ex_run "a.pdf" ex_world).2 !! (INBOX, "a.pdf" : text) = None
  /\ fs (ex_run "a.pdf" ex_world).2 !! (DONE, "a.pdf" : text) = Some ("pdf-1" : text)
  /\ fs (ex_run "b.pdf" ex_world_unknown_lot).2 !! (ERR, "b.pdf" : text) = Some ("pdf-2" : text).
Proof.
  destruct (document_is_filed ex_products ex_pesticides ex_sheets ex_sha ex_ocr ex_annotate
              ex_csv ex_now ex_world "a.pdf" "pdf-1") as (_ & H1 & _); [reflexivity|].
  split; [exact H1|]. vm_compute. auto.
Defined.

Lemma other_files_untouched_witness :
  fs (ex_run "a.pdf" ex_world_two).2 !! (INBOX, "notes.txt" : text) = Some ("memo" : text).
Proof.
  unfold ex_run.
  rewrite (other_files_untouched ex_products ex_pesticides ex_sheets ex_sha ex_ocr ex_annotate
             ex_csv ex_now ex_world_two "a.pdf" (INBOX, "notes.txt" : text));
    [reflexivity|discriminate..].
Defined.

Lemma same_bytes_processed_once_witness :
  let w3 := (ex_run "a.pdf" ex_world_again).2 in
  processed w3 = processed ex_world_again
  /\ fs w3 !! (DONE, "a.pdf" : text) = Some ("pdf-1" : text)
  /\ fs w3 !! (INBOX, "a.pdf" : text) = None.
Proof.
  destruct (same_bytes_processed_once ex_products ex_pesticides ex_sheets ex_sha ex_ocr
              ex_annotate ex_csv ex_now ex_world "a.pdf" "a.pdf" "pdf-1" ex_certificate
              {| CertificateNumber := "Dokki-2024-001"; Sample := ""; LotNumber := "778" |}
              "Acme Farms" "INT-99" "pdf-1+INT-99  Acme Farms" ex_world_again)
    as (_ & _ & H1 & H2 & H3 & _); try (vm_compute; reflexivity).
  - exists []. vm_compute. reflexivity.
  - split; [exact H1|]. split; [exact H2|exact H3].
Defined.

Lemma done_folder_after_success_witness :
  let w' := (ex_run "a.pdf" ex_world).2 in
  fs w' !! (DONE, "a.pdf" : text) = Some ("pdf-1" : text)
  /\ fs w' !! (DONE, "a_ANNOTATED.pdf" : text) = Some ("pdf-1+INT-99  Acme Farms" : text).
Proof.
  destruct (done_folder_after_success ex_products ex_pesticides ex_sheets ex_sha ex_ocr
              ex_annotate ex_csv ex_now ex_world "a" "pdf-1" ex_certificate
              {| CertificateNumber := "Dokki-2024-001"; Sample := ""; LotNumber := "778" |}
              "Acme Farms" "INT-99" "pdf-1+INT-99  Acme Farms")
    as (H1 & H2 & _); try (vm_compute; reflexivity).
  split; [exact H1|exact H2].
Defined.

Lemma outputs_overwritten_without_lower_pdf_witness :
  let w' := (ex_run "C.PDF" ex_world_upper).2 in
  fs w' !! (DONE, "C.PDF" : text) = Some ("pdf-1" : text)
  /\ fs w' !! (DONE, "C_ANNOTATED.pdf" : text) = None.
Proof.
  destruct (outputs_overwritten_without_lower_pdf ex_products ex_pesticides ex_sheets ex_sha
              ex_ocr ex_annotate ex_csv ex_now ex_world_upper "C.PDF" "pdf-1" ex_certificate
              {| CertificateNumber := "Dokki-2024-001"; Sample := ""; LotNumber := "778" |}
              "Acme Farms" "INT-99" "pdf-1+INT-99  Acme Farms")
    as (_ & H1 & H2); try (vm_compute; reflexivity).
  split; [exact H1|]. rewrite H2 by discriminate. reflexivity.
Defined.

Lemma missing_file_is_reported_witness :
  let w := {| fs := <[(PROC, "a.pdf" : text) := ("left over" : text)]> ∅;
              processed := []; trace := [] |} in
  fs (ex_run "a.pdf" w).2 !! (ERR, "a.pdf" : text) = Some ("left over" : text)
  /\ processed (ex_run "a.pdf" w).2 = [].
Proof.
  intros w.
  destruct (missing_file_is_reported ex_products ex_pesticides ex_sheets ex_sha ex_ocr
              ex_annotate ex_csv ex_now w "a.pdf") as (_ & H1 & _ & _ & _ & H2); [reflexivity|].
  destruct (H2 "left over") as [H3 _]; [reflexivity|].
  split; [exact H3|exact H1].
Defined.

Lemma second_run_changes_nothing_witness :
  let w1 := (ex_run "a.pdf" ex_world).2 in
  fs (ex_run "a.pdf" w1).2 = fs w1 /\ processed (ex_run "a.pdf" w1).2 = processed w1.
Proof.
  destruct (second_run_changes_nothing ex_products ex_pesticides ex_sheets ex_sha ex_ocr
              ex_annotate ex_csv ex_now ex_world "a.pdf" "pdf-1") as (H1 & H2 & _);
    [reflexivity|].
  split; [exact H1|exact H2].
Defined.

(** ** The extractors, further *)

Lemma all_digits_intro a : a <> [] -> forallb is_digit a = true -> all_digits a = true.
Proof. intros Ha Hd. unfold all_digits, is_empty. by rewrite bool_decide_eq_false_2, Hd. Qed.

Lemma re_decimal_match s m r : In (m, r) (re_match false re_decimal s) -> decimal_shape m.
Proof.
  simpl. rewrite in_flat_map. intros ([a r1] & Ha & Hb).
  apply plus_splits_spec in Ha as (Ha & Hda & _).
  apply in_map_iff in Hb as ([b r2] & [= <- _] & Hb).
  apply in_flat_map in Hb as ([d r3] & Hd & Hb).
  apply lit_match_spec in Hd as [-> _].
  apply in_map_iff in Hb as ([c r4] & [= <- _] & Hc).
  apply plus_splits_spec in Hc as (Hc & Hdc & _).
  exists a, c. simpl. split; [done|]. split; by apply all_digits_intro.
Qed.

Lemma re_lot_match s m r : In (m, r) (re_match false re_lot s) -> lot_shape m.
Proof.
  simpl. rewrite in_flat_map. intros ([a r1] & Ha & Hb).
  apply plus_splits_spec in Ha as (Ha & Hda & _).
  apply in_map_iff in Hb as ([b r2] & [= <- _] & Hb).
  apply in_app_iff in Hb as [Hb|[[= <- _]|[]]].
  - right. apply in_flat_map in Hb as ([d r3] & Hd & Hb).
    apply lit_match_spec in Hd as [-> _].
    apply in_map_iff in Hb as ([c r4] & [= <- _] & Hc).
    apply plus_splits_spec in Hc as (Hc & Hdc & _).
    exists a, c. simpl. split; [done|]. split; by apply all_digits_intro.
  - left. simpl. rewrite app_nil_r. by apply all_digits_intro.
Qed.

Lemma re_dokki_match_shape s m r :
  In (m, r) (re_match false re_dokki s) ->
  exists t, m = ("dokki" : text) ++ t /\ t <> [] /\ forallb is_dash_or_digit t = true.
Proof.
  simpl. rewrite in_flat_map. intros ([a r1] & Ha & Hb).
  apply lit_match_spec in Ha as [-> _]. apply in_map_iff in Hb as ([b r2] & [= <- _] & Hb).
  apply plus_splits_spec in Hb as (Hne & Hb & _). by exists b.
Qed.

Lemma first_found_some {A} (f : text -> option A) lines x :
  first_found f lines = Some x -> exists l, In l lines /\ f l = Some x.
Proof.
  induction lines as [|l lines IH]; [done|]. simpl.
  destruct (f l) as [a|] eqn:E.
  - intros [= <-]. exists l. auto.
  - intros (l' & ? & ?)%IH. exists l'. auto.
Qed.

(** *** Lines and case *)

Lemma linebreak_lower_char c :
  (code (lower_char c) =? 10) = (code c =? 10)
  /\ (code (lower_char c) =? 13) = (code c =? 13)
  /\ is_linebreak (lower_char c) = is_linebreak c.
Proof. destruct c as [[] [] [] [] [] [] [] []]; vm_compute; auto. Qed.

Lemma splitlines_from_lower cur after_cr s :
  splitlines_from (str_lower cur) after_cr (str_lower s)
  = map str_lower (splitlines_from cur after_cr s).
Proof.
  revert cur after_cr. induction s as [|c s IH]; intros cur after_cr.
  - cbn [splitlines_from str_lower map]. by destruct cur.
  - cbn [splitlines_from str_lower map].
    destruct (linebreak_lower_char c) as (-> & -> & ->).
    destruct ((code c =? 10) && after_cr).
    + apply (IH []).
    + destruct (is_linebreak c).
      * cbn [map]. f_equal. apply (IH []).
      * rewrite <- IH. unfold str_lower. by rewrite map_app.
Qed.

Lemma splitlines_lower s : splitlines (str_lower s) = map str_lower (splitlines s).
Proof. apply (splitlines_from_lower []). Qed.

(** *** White space at the ends *)

Lemma starts_clean_bools s :
  starts_clean s = match map is_space s with [] => true | sp :: _ => negb sp end.
Proof. by destruct s. Qed.

Lemma no_outer_space_ext s t :
  map is_space s = map is_space t -> no_outer_space s = no_outer_space t.
Proof.
  intros H. unfold no_outer_space. rewrite !starts_clean_bools, !map_rev. by rewrite H.
Qed.

Lemma is_space_upper_char c : is_space (upper_char c) = is_space c.
Proof. by_chars c. Qed.

Lemma is_space_title prev s : map is_space (title_from prev s) = map is_space s.
Proof.
  revert prev. induction s as [|c s IH]; intros prev; [done|].
  cbn [title_from map]. rewrite IH. f_equal.
  destruct prev; [apply is_space_lower_char|apply is_space_upper_char].
Qed.

Lemma is_space_lower s : map is_space (str_lower s) = map is_space s.
Proof.
  unfold str_lower. rewrite map_map. apply map_ext. intros c. apply is_space_lower_char.
Qed.

Lemma lstrip_spec s : exists sp, s = sp ++ lstrip s /\ starts_clean (lstrip s) = true.
Proof.
  induction s as [|c s (sp & IH1 & IH2)]; [by exists []|].
  cbn [lstrip]. destruct (is_space c) eqn:E.
  - exists (c :: sp). split; [by rewrite <- app_comm_cons, <- IH1|done].
  - exists []. split; [done|]. cbn [starts_clean]. by rewrite E.
Qed.

Lemma starts_clean_app a b : a <> [] -> starts_clean (a ++ b) = starts_clean a.
Proof. by destruct a. Qed.

Lemma str_strip_clean s : no_outer_space (str_strip s) = true.
Proof.
  unfold no_outer_space, str_strip, rstrip.
  destruct (lstrip_spec s) as (sp1 & _ & Ht).
  destruct (lstrip_spec (rev (lstrip s))) as (sp2 & Hu & Hu').
  rewrite rev_involutive, Hu', andb_true_r.
  destruct (lstrip (rev (lstrip s))) as [|c u] eqn:E; [done|].
  apply (f_equal (@rev ascii)) in Hu. rewrite rev_involutive, rev_app_distr in Hu.
  rewrite Hu in Ht. rewrite starts_clean_app in Ht; [done|].
  simpl. by destruct (rev u).
Qed.

Lemma load_list_clean column name :
  In name (load_list column) -> no_outer_space name = true.
Proof.
  unfold load_list. intros (p & <- & _)%in_map_iff.
  rewrite (no_outer_space_ext _ (str_strip p)) by apply is_space_lower.
  apply str_strip_clean.
Qed.

(** X13.  The lexicon loader keeps the entries of the column, as many and in
    their order, each trimmed and in lower case: an entry holds no upper-case
    letter and no white space at either end. *)
Theorem load_list_normalised column :
  length (load_list column) = length column
  /\ Forall (fun name => str_lower name = name /\ no_outer_space name = true)
       (load_list column)
  /\ forall i p, column !! i = Some p -> load_list column !! i = Some (str_lower (str_strip p)).
Proof.
  split; [apply length_map|]. split.
  - apply List.Forall_forall. intros name Hname. split.
    + by eapply load_list_lower.
    + by eapply load_list_clean.
  - induction column as [|q column IH]; intros [|i] p; try done.
    + by intros [= ->].
    + apply IH.
Qed.

Section ResultsFurther.

Variable pesticides_csv : list text.
Variable h : header.

Local Abbreviation PESTS := (PESTICIDES pesticides_csv).
Local Abbreviation loop := (results_loop pesticides_csv h).

Lemma results_loop_lower lines capture rows :
  loop (map str_lower lines) capture rows = loop lines capture rows.
Proof.
  revert capture rows. induction lines as [|l lines IH]; intros capture rows; [done|].
  cbn [results_loop map]. rewrite str_lower_idem.
  destruct (str_in "results of analysis" (str_lower l)); [apply IH|].
  destruct capture; [|apply IH].
  destruct (str_in "measurement uncertainty" (str_lower l)); [done|].
  destruct (is_empty (str_strip (str_lower l))); [apply IH|].
  destruct (str_in "not detected" (str_lower l)); [done|].
  by rewrite !IH.
Qed.

(** X14.  The results are read without regard to case: the text in lower case
    gives the rows of the text itself. *)
Theorem results_ignore_case raw :
  extract_results_to_rows pesticides_csv (str_lower raw) h
  = extract_results_to_rows pesticides_csv raw h.
Proof.
  unfold extract_results_to_rows. rewrite splitlines_lower. apply results_loop_lower.
Qed.

(** X15.  A text none of whose lines holds "results of analysis" gives no row,
    whatever else it holds. *)
Theorem no_heading_no_rows raw :
  Forall (fun l => has_results_of_analysis l = false) (splitlines raw) ->
  extract_results_to_rows pesticides_csv raw h = [].
Proof.
  intros Hpre. unfold extract_results_to_rows.
  rewrite <- (app_nil_r (splitlines raw)). by rewrite loop_before.
Qed.

Lemma analyte_rows_shape names l :
  Forall (analyte_row_shape h names) (analyte_rows h names l).
Proof.
  unfold analyte_rows. apply List.Forall_forall. intros r (name & Hname & Hr)%in_flat_map.
  destruct (icontains name l); [|done].
  destruct (icontains "<loq" l).
  - destruct Hr as [<-|[]]. split; [done|]. split; [by exists name|]. by left.
  - destruct (first_decimal l) as [d|] eqn:Hd; [|done].
    destruct Hr as [<-|[]]. split; [done|]. split; [by exists name|]. right.
    split; [|done]. simpl.
    apply re_search_group_match in Hd as (s' & rest & Hd). by eapply re_decimal_match.
Qed.

Lemma results_loop_shape lines capture rows :
  Forall (analyte_row_shape h PESTS) rows ->
  exists rows',
    Forall (analyte_row_shape h PESTS) rows'
    /\ (loop lines capture rows = rows' \/ loop lines capture rows = rows' ++ [not_detected_row h]).
Proof.
  revert capture rows. induction lines as [|l lines IH]; intros capture rows Hrows.
  { exists rows. auto. }
  cbn [results_loop].
  destruct (str_in "results of analysis" (str_lower l)); [by apply IH|].
  destruct capture; [|by apply IH].
  destruct (str_in "measurement uncertainty" (str_lower l)); [exists rows; auto|].
  destruct (is_empty (str_strip (str_lower l))); [by apply IH|].
  destruct (str_in "not detected" (str_lower l)); [exists rows; auto|].
  assert (Hst : Forall (analyte_row_shape h PESTS)
                  (fold_left (pesticide_step h (str_lower l)) PESTS (false, rows)).2).
  { rewrite pesticide_fold_rows by (intros; by eapply load_list_lower).
    apply Forall_app. split; [done|]. apply analyte_rows_shape. }
  destruct (fold_left (pesticide_step h (str_lower l)) PESTS (false, rows)).1; by apply IH.
Qed.

Lemma decimal_not_declared d : decimal_shape d -> d <> "Not detected".
Proof.
  intros (a & b & -> & Ha & _) H. unfold all_digits in Ha.
  destruct a as [|c a]; [done|]. simpl in Ha. apply andb_true_iff in Ha as [Hc _].
  injection H as -> _. done.
Qed.

(** X16.  Every row carries the header it was given.  The rows for analytes come
    first: each names an entry of the pesticide lexicon in title case, with
    the result "LOQ" and no unit or a decimal in mg/kg.  The row "Not
    detected" is written at most once, it is then the last row, and no
    analyte row has that result. *)
Theorem rows_shape raw :
  exists rows',
    Forall (analyte_row_shape h PESTS) rows'
    /\ Forall (fun r => Result r <> "Not detected") rows'
    /\ (extract_results_to_rows pesticides_csv raw h = rows'
        \/ extract_results_to_rows pesticides_csv raw h = rows' ++ [not_detected_row h])
    /\ Forall (fun r => row_header r = h) (extract_results_to_rows pesticides_csv raw h).
Proof.
  destruct (results_loop_shape (splitlines raw) false []) as (rows' & Hshape & Hrows);
    [constructor|].
  exists rows'. split; [done|].
  assert (Hh : Forall (fun r => row_header r = h) rows').
  { eapply Forall_impl; [exact Hshape|]. by intros r (? & _). }
  split; [|split; [done|]].
  - eapply Forall_impl; [exact Hshape|]. intros r (_ & _ & [[-> _]|[Hd _]]); [done|].
    by apply decimal_not_declared.
  - unfold extract_results_to_rows. destruct Hrows as [->| ->]; [done|].
    apply Forall_app. split; [done|]. by constructor.
Qed.

End ResultsFurther.

Section HeaderFurther.

Variable products_csv : list text.

Lemma lot_of_line_shape l m : lot_of_line l = Some m -> lot_shape m.
Proof.
  unfold lot_of_line. destruct (icontains _ l); [|done].
  intros (s' & rest & H)%re_search_group_match. by eapply re_lot_match.
Qed.

Lemma cert_of_line_shape l m : cert_of_line l = Some m -> cert_shape m.
Proof.
  unfold cert_of_line. destruct (icontains _ l); [|done].
  destruct (re_search_group false re_dokki (str_lower l)) as [m'|] eqn:E; [|done].
  intros [= <-].
  apply re_search_group_match in E as (s' & rest & (t & -> & Hne & Ht)%re_dokki_match_shape).
  by exists t.
Qed.

Lemma sample_of_line_clean l s : sample_of_line l = Some s -> no_outer_space s = true.
Proof.
  unfold sample_of_line. destruct (startswith _ _); [|done].
  intros [= <-]. apply str_strip_clean.
Qed.

(** X17.  The header never fails to be extracted, and its fields have these
    shapes.  LotNumber is empty or digits, optionally followed by "/" and
    digits.  CertificateNumber is empty or "Dokki" followed by at least one
    dash or digit, and by dashes and digits only.  Sample has no white space
    at either end. *)
Theorem header_fields_shape raw :
  exists hd,
    extract_header_fields products_csv raw = Ok hd
    /\ (LotNumber hd = [] \/ lot_shape (LotNumber hd))
    /\ (CertificateNumber hd = [] \/ cert_shape (CertificateNumber hd))
    /\ no_outer_space (Sample hd) = true.
Proof.
  eexists. split; [apply extract_header_fields_spec|]. cbn [LotNumber CertificateNumber Sample].
  split; [|split].
  - destruct (first_found lot_of_line (splitlines raw)) as [m|] eqn:E; [|by left].
    right. apply first_found_some in E as (l & _ & E). by eapply lot_of_line_shape.
  - destruct (first_found cert_of_line (splitlines raw)) as [m|] eqn:E; [|by left].
    right. apply first_found_some in E as (l & _ & E). by eapply cert_of_line_shape.
  - assert (Hlines : no_outer_space (default [] (first_found sample_of_line (splitlines raw)))
                     = true).
    { destruct (first_found sample_of_line (splitlines raw)) as [s|] eqn:E; [|done].
      apply first_found_some in E as (l & _ & E). by eapply sample_of_line_clean. }
    destruct (first_name_in (PRODUCTS products_csv) raw) as [[|c name]|] eqn:E; try done.
    apply find_some in E as [E _].
    rewrite (no_outer_space_ext _ (c :: name)) by apply is_space_title.
    by eapply load_list_clean.
Qed.

End HeaderFurther.

Lemma no_heading_no_rows_witness :
  extract_results_to_rows ex_pesticides
    (unlines [ "Lot Number: 778" : text; "Chlorpyrifos 0.023 mg/kg" : text ]) ex_header = [].
Proof.
  apply (no_heading_no_rows ex_pesticides ex_header).
  vm_compute. repeat constructor.
Defined.

(** ** The fall-back sample *)

Lemma startswith_iff p s : startswith p s = true <-> exists b, s = p ++ b.
Proof.
  revert s. induction p as [|a p IH]; intros [|c s]; cbn [startswith].
  - split; [by exists []|done].
  - split; [by eexists|done].
  - split; [done|]. by intros [b [=]].
  - rewrite andb_true_iff, bool_decide_eq_true, IH. split.
    + intros [-> [b ->]]. by exists b.
    + intros [b [= -> ->]]. split; [done|]. by exists b.
Qed.

Lemma str_in_iff p s : str_in p s = true <-> exists a b, s = a ++ p ++ b.
Proof.
  induction s as [|c s IH]; cbn [str_in].
  - rewrite orb_false_r, startswith_iff. split.
    + intros [b Hb]. by exists [], b.
    + intros (a & b & H). destruct a; [by exists b|done].
  - rewrite orb_true_iff, startswith_iff, IH. split.
    + intros [[b Hb]|(a & b & ->)]; [by exists [], b|by exists (c :: a), b].
    + intros ([|c' a] & b & H); [left; by exists b|right].
      injection H as -> ->. by exists a, b.
Qed.

Lemma str_strip_inside s : exists a b, s = a ++ str_strip s ++ b.
Proof.
  unfold str_strip, rstrip.
  destruct (lstrip_spec s) as (sp1 & H1 & _).
  destruct (lstrip_spec (rev (lstrip s))) as (sp2 & H2 & _).
  exists sp1, (rev sp2). rewrite <- rev_app_distr, <- H2, rev_involutive. exact H1.
Qed.

Lemma str_in_inside p a m b : str_in p (a ++ m ++ b) = false -> str_in p m = false.
Proof.
  intros H. apply not_true_iff_false. intros (a' & b' & ->)%str_in_iff.
  apply not_true_iff_false in H. apply H, str_in_iff.
  exists (a ++ a'), (b' ++ b). by rewrite <- !app_assoc.
Qed.

Lemma before_stop_no_digit s :
  forallb (fun c => negb (is_digit c)) (before_stop s) = true.
Proof.
  induction s as [|c s IH]; [done|]. cbn [before_stop].
  destruct (_ || _ || _ || is_digit c) eqn:E; [done|].
  apply orb_false_iff in E as [_ E]. cbn [forallb]. by rewrite E, IH.
Qed.

(** Where the text begins with the word, nothing is kept. *)
Lemma before_stop_no_word kw s :
  kw <> [] ->
  (forall t, startswith kw (str_lower t) = true -> before_stop t = []) ->
  str_in kw (str_lower (before_stop s)) = false.
Proof.
  intros Hkw Hstop. induction s as [|c s IH].
  - cbn [before_stop str_lower map str_in]. by destruct kw.
  - destruct (startswith kw (str_lower (c :: s))) eqn:E.
    + rewrite (Hstop _ E). cbn [str_lower map str_in]. by destruct kw.
    + cbn [before_stop]. destruct (_ || _ || _ || is_digit c); [by destruct kw|].
      change (str_lower (c :: before_stop s)) with (lower_char c :: str_lower (before_stop s)).
      cbn [str_in]. rewrite IH, orb_false_r.
      apply not_true_iff_false. intros [b Hb]%startswith_iff.
      apply not_true_iff_false in E. apply E, startswith_iff.
      assert (Hpre : exists rest, s = before_stop s ++ rest).
      { clear. induction s as [|d s [rest IH]]; [by exists []|]. cbn [before_stop].
        destruct (_ || _ || _ || is_digit d); [by eexists|].
        exists rest. by rewrite <- app_comm_cons, <- IH. }
      destruct Hpre as [rest Hrest]. exists (b ++ str_lower rest).
      rewrite app_assoc, <- Hb. rewrite Hrest at 1.
      change (str_lower (c :: before_stop s ++ rest))
        with (lower_char c :: str_lower (before_stop s ++ rest)).
      unfold str_lower. by rewrite map_app.
Qed.

Lemma before_stop_words s :
  str_in "fax" (str_lower (before_stop s)) = false
  /\ str_in "phone" (str_lower (before_stop s)) = false
  /\ str_in "id" (str_lower (before_stop s)) = false.
Proof.
  repeat split; (apply before_stop_no_word; [done|]); intros [|c t] Ht; try done;
    cbn [before_stop]; by rewrite Ht, ?orb_true_r.
Qed.

Lemma sample_of_line_stops l s :
  sample_of_line l = Some s ->
  forallb (fun c => negb (is_digit c)) s = true
  /\ str_in "fax" (str_lower s) = false
  /\ str_in "phone" (str_lower s) = false
  /\ str_in "id" (str_lower s) = false.
Proof.
  unfold sample_of_line. destruct (startswith _ _); [|done]. intros [= <-].
  destruct (str_strip_inside (before_stop (drop 8 l))) as (a & b & Hab).
  pose proof (before_stop_no_digit (drop 8 l)) as Hd.
  destruct (before_stop_words (drop 8 l)) as (H1 & H2 & H3).
  rewrite Hab in Hd, H1, H2, H3. unfold str_lower in H1, H2, H3.
  rewrite !map_app in H1, H2, H3. rewrite !forallb_app in Hd.
  apply andb_true_iff in Hd as [_ [Hd _]%andb_true_iff].
  split; [done|]. split; [|split]; by eapply str_in_inside.
Qed.

Section SampleFurther.

Variable products_csv : list text.

(** X18.  When no product name of the lexicon gives the sample, the sample is
    taken from a "sample :" line and holds no digit and, in whatever case,
    none of "fax", "phone" and "id": the value is cut before the first of
    them. *)
Theorem fallback_sample_stops raw :
  sample_from_products (PRODUCTS products_csv) (str_lower raw) = [] ->
  exists hd,
    extract_header_fields products_csv raw = Ok hd
    /\ Sample hd = default [] (first_found sample_of_line (splitlines raw))
    /\ forallb (fun c => negb (is_digit c)) (Sample hd) = true
    /\ str_in "fax" (str_lower (Sample hd)) = false
    /\ str_in "phone" (str_lower (Sample hd)) = false
    /\ str_in "id" (str_lower (Sample hd)) = false.
Proof.
  intros Htier. unfold extract_header_fields. rewrite Htier.
  change (is_empty []) with true. cbv iota. rewrite sample_from_lines_spec.
  eexists. split; [done|]. cbn [Sample]. split; [done|].
  destruct (first_found sample_of_line (splitlines raw)) as [s|] eqn:E; [|done].
  apply first_found_some in E as (l & _ & E). by eapply sample_of_line_stops.
Qed.

End SampleFurther.

Lemma fallback_sample_stops_witness :
  exists hd,
    extract_header_fields ex_products "Sample : Dried Apricot Phone 5" = Ok hd
    /\ Sample hd = "Dried Apricot".
Proof.
  destruct (fallback_sample_stops ex_products "Sample : Dried Apricot Phone 5")
    as (hd & H1 & H2 & _); [reflexivity|].
  exists hd. split; [exact H1|]. rewrite H2. reflexivity.
Defined.

(** ** The reference table and reconciliation, further *)



Lemma isin_In x values : isin x values = true <-> In x values.
Proof. unfold isin. rewrite bool_decide_eq_true. apply list_elem_of_In. Qed.

Lemma digit_runs_no_digit s :
  forallb (fun c => negb (is_digit c)) s = true -> digit_runs s = [].
Proof.
  unfold digit_runs. induction s as [|c s IH]; [done|].
  cbn [forallb digit_runs_from]. intros [Hc Hs]%andb_true_iff.
  apply negb_true_iff in Hc. rewrite Hc. by apply IH.
Qed.

(** X20.  Reconciliation raises nothing but "lot not found", and raises it exactly
    when no record's external lot id is among the digit runs of the text, as
    for a text without a digit.  When it succeeds, the supplier is that of a
    record whose id is a digit run of the text. *)
Theorem reconcile_outcome sheets raw :
  match reconcile sheets raw with
  | Ok (sup, lots) =>
      exists rec, In rec (df sheets) /\ In (Lot_external rec) (digit_runs raw)
                  /\ supplier_name (xl rec) = sup
  | Raise e =>
      e = LotNotFound
      /\ forall rec, In rec (df sheets) -> ~ In (Lot_external rec) (digit_runs raw)
  end
  /\ (forallb (fun c => negb (is_digit c)) raw = true ->
      reconcile sheets raw = Raise LotNotFound).
Proof.
  rewrite reconcile_spec. split.
  - destruct (List.filter _ (df sheets)) as [|r0 rest] eqn:E.
    + split; [done|]. intros rec Hrec Hin.
      assert (Hf : In rec (List.filter (fun r => isin (Lot_external r) (digit_runs raw))
                             (df sheets))).
      { apply filter_In. split; [done|]. by apply isin_In. }
      by rewrite E in Hf.
    + assert (Hf : In r0 (List.filter (fun r => isin (Lot_external r) (digit_runs raw))
                            (df sheets))) by (rewrite E; by left).
      apply filter_In in Hf as [Hr0 Hin%isin_In]. by exists r0.
  - intros Hraw. rewrite digit_runs_no_digit by done.
    replace (List.filter (fun r => isin (Lot_external r) []) (df sheets)) with (@nil lot_record);
      [done|].
    symmetry. induction (df sheets) as [|r l IH]; [done|]. simpl. exact IH.
Qed.

(** X21.  Reconciliation looks at the set of digit runs of the text only: two
    texts with the same runs, in whatever order and however often, give the
    same supplier and the same internal lots, or both fail. *)
Theorem reconcile_same_runs sheets raw1 raw2 :
  (forall x, In x (digit_runs raw1) <-> In x (digit_runs raw2)) ->
  reconcile sheets raw1 = reconcile sheets raw2.
Proof.
  intros Hruns. rewrite !reconcile_spec.
  replace (List.filter (fun r => isin (Lot_external r) (digit_runs raw1)) (df sheets))
    with (List.filter (fun r => isin (Lot_external r) (digit_runs raw2)) (df sheets)); [done|].
  apply filter_ext. intros r.
  destruct (isin (Lot_external r) (digit_runs raw1)) eqn:E1.
  - apply isin_In. apply Hruns. by apply isin_In.
  - apply not_true_iff_false. intros H%isin_In%Hruns%isin_In. congruence.
Qed.

Section Unreadable.

Variable products_csv : list text.
Variable pesticides_csv : list text.
Variable sheets : list (list xl_row).
Variable sha256_hex : text -> text.
Variable annotate : text -> text -> text -> option text.
Variable csv_of : list row -> text.
Variable datetime_now : list step -> text.

Variable page : Type.
Variable fitz_open : text -> option (list page).
Variable page_to_string : page -> option text.

Lemma ocr_of_pages_none b :
  fitz_open b = None
  \/ (exists pages p, fitz_open b = Some pages /\ In p pages /\ page_to_string p = None) ->
  ocr_of_pages page fitz_open page_to_string b = None.
Proof.
  unfold ocr_of_pages, ocr_text_pages, try_finally, doc_close.
  intros [->|(pages & p & -> & Hp & Hnone)]; [done|]. simpl.
  rewrite ocr_pages_spec.
  destruct (mapM page_to_string pages) as [ts|] eqn:E; [|done].
  exfalso. assert (His : is_Some (mapM page_to_string pages)) by (by rewrite E).
  apply mapM_is_Some in His. rewrite Forall_forall in His.
  apply list_elem_of_In in Hp. apply His in Hp. simpl in Hp. rewrite Hnone in Hp.
  by destruct Hp.
Qed.

(** X23.  With [ocr_text] over the pages: a document that does not open, or one
    page of which cannot be read, goes to the error folder as it came.
    Nothing is extracted from the pages that were read, no CSV and no
    annotated copy is written, and the ledger is as it was. *)
Theorem unreadable_document_is_rejected w file b :
  fs w !! (INBOX, file) = Some b ->
  in_ledger (sha256_hex b) w = false ->
  fitz_open b = None
  \/ (exists pages p, fitz_open b = Some pages /\ In p pages /\ page_to_string p = None) ->
  let w' := (process_file products_csv pesticides_csv sheets sha256_hex
               (ocr_of_pages page fitz_open page_to_string) annotate csv_of datetime_now
               file w).2 in
  fs w' !! (ERR, file) = Some b
  /\ fs w' !! (INBOX, file) = None
  /\ fs w' !! (PROC, file) = None
  /\ (forall p, p <> (INBOX, file) -> p <> (PROC, file) -> p <> (ERR, file) ->
                fs w' !! p = fs w !! p)
  /\ processed w' = processed w
  /\ new_steps w w'
     = [Moved (INBOX, file) (PROC, file); Hashed (PROC, file); LedgerQueried (sha256_hex b);
        OcrRun (PROC, file); Moved (PROC, file) (ERR, file); ErrorPrinted file OcrError].
Proof.
  intros Hin Hnew Hbad%ocr_of_pages_none w'. subst w'.
  rewrite (run_ocr_failed products_csv pesticides_csv sheets sha256_hex _ annotate csv_of
             datetime_now w file b Hin Hnew Hbad).
  cbn [snd].
  destruct (failed_lookup csv_of w file b []
              (steps_lookup sha256_hex file b ++ [OcrRun (PROC, file)]) OcrError)
    as (H1 & H2 & H3 & H4 & _).
  split; [done|]. split; [done|]. split; [done|]. split; [|split; [done|]].
  - intros p Hp1 Hp2 Hp3. unfold failed, filed, acquired. cbn [fs].
    by autorewrite with folders.
  - erewrite new_steps_app by (unfold failed; cbn [trace]; reflexivity).
    by rewrite <- app_assoc.
Qed.

End Unreadable.

Lemma reconcile_same_runs_witness :
  reconcile ex_sheets "lots 778 and 12" = reconcile ex_sheets "12, 778, 778".
Proof.
  apply (reconcile_same_runs ex_sheets "lots 778 and 12" "12, 778, 778").
  intros x. vm_compute. tauto.
Defined.

Lemma unreadable_document_is_rejected_witness :
  let w' := (process_file ex_products ex_pesticides ex_sheets ex_sha
               (ocr_of_pages text ex_fitz_open ex_page_to_string) ex_annotate ex_csv ex_now
               "bad.pdf" ex_world_bad).2 in
  fs w' !! (ERR, "bad.pdf" : text) = Some ("doc-bad" : text) /\ processed w' = [].
Proof.
  destruct (unreadable_document_is_rejected ex_products ex_pesticides ex_sheets ex_sha
              ex_annotate ex_csv ex_now text ex_fitz_open ex_page_to_string
              ex_world_bad "bad.pdf" "doc-bad")
    as (H1 & _ & _ & _ & H2 & _); [reflexivity|reflexivity| |].
  - right. exists [ "page one" : text; "" : text; "page three" : text ], ("" : text).
    split; [reflexivity|]. split; [simpl; auto|reflexivity].
  - split; [exact H1|exact H2].
Defined.
